(** * Waste-heat-reuse calculator: the computation pipeline of [Page]

    Shallow embedding of the derivations of the calculator page (thermal
    core, performance ramps, offtake outputs, DC efficiency, piping cost,
    ownership comparison, CO2 tables) and the properties stated about them.

    Numbers.  The page computes with JavaScript numbers.  Finite values
    are modelled as exact rationals ([Q]); rounding and overflow of the
    binary floating-point format are abstracted away, so equalities
    between computed values are stated up to [==].  Where the source
    divides by a quantity that can be zero, the quotient is a [num]: a
    finite rational or one of the three non-finite values a JavaScript
    division produces.  Signed zeros are not distinguished.

    Strings.  Texts are sequences of bytes.  [toLowerCase] and [trim]
    are written out for ASCII text, where they agree with the methods
    of the platform; outside ASCII the platform also folds accented
    capital letters, strips further white space and counts the length
    in UTF-16 units.  The region lookups and the list of
    locations are therefore defined a second time over arbitrary string
    methods (section [StringMethods]), and what is proved about them
    holds for every choice of these methods. *)

From Stdlib Require Import ZArith QArith Qminmax Qabs Qround Lqa Lia.
From Stdlib Require Import PeanoNat NArith DecimalString String Ascii List Bool.
Import ListNotations.

Open Scope string_scope.
Open Scope Q_scope.

(* ------------------------------------------------------------------ *)
(** ** JavaScript numbers *)

Module JS.

(** Comparison operators on finite numbers. *)
Definition leb (a b : Q) : bool := Qle_bool a b.
Definition ltb (a b : Q) : bool := negb (Qle_bool b a).
Definition eqb (a b : Q) : bool := Qeq_bool a b.

(** A number that may be non-finite. *)
Inductive num : Type :=
| Fin (q : Q)
| PInf
| NInf
| NaN.

Definition sign_inf (positive : bool) : num :=
  if positive then PInf else NInf.

Definition neg (a : num) : num :=
  match a with
  | Fin q => Fin (- q)
  | PInf => NInf
  | NInf => PInf
  | NaN => NaN
  end.

Definition add (a b : num) : num :=
  match a, b with
  | NaN, _ | _, NaN => NaN
  | Fin x, Fin y => Fin (x + y)
  | PInf, NInf | NInf, PInf => NaN
  | PInf, _ | _, PInf => PInf
  | NInf, _ | _, NInf => NInf
  end.

Definition sub (a b : num) : num := add a (neg b).

(** Infinity times a finite factor: the sign of the factor decides,
    and a zero factor gives NaN. *)
Definition scale_inf (positive : bool) (q : Q) : num :=
  if eqb q 0 then NaN
  else sign_inf (if ltb 0 q then positive else negb positive).

Definition mul (a b : num) : num :=
  match a, b with
  | NaN, _ | _, NaN => NaN
  | Fin x, Fin y => Fin (x * y)
  | Fin x, PInf | PInf, Fin x => scale_inf true x
  | Fin x, NInf | NInf, Fin x => scale_inf false x
  | PInf, PInf | NInf, NInf => PInf
  | PInf, NInf | NInf, PInf => NInf
  end.

(** [a / b]: a zero divisor gives an infinity of the sign of the
    dividend, or NaN for [0 / 0]. *)
Definition div (a b : num) : num :=
  match a, b with
  | NaN, _ | _, NaN => NaN
  | Fin x, Fin y =>
      if eqb y 0 then
        (if eqb x 0 then NaN else sign_inf (ltb 0 x))
      else Fin (x / y)
  | Fin _, (PInf | NInf) => Fin 0
  | PInf, Fin y => sign_inf (leb 0 y)
  | NInf, Fin y => sign_inf (negb (leb 0 y))
  | (PInf | NInf), (PInf | NInf) => NaN
  end.

Definition is_finite (a : num) : bool :=
  match a with Fin _ => true | _ => false end.

(** The same number, finite values compared as rationals. *)
Definition num_eq (a b : num) : Prop :=
  match a, b with
  | Fin x, Fin y => x == y
  | PInf, PInf | NInf, NInf | NaN, NaN => True
  | _, _ => False
  end.

End JS.

Import JS.

(* ------------------------------------------------------------------ *)
(** ** Strings: the two operations the lookups use *)

(** [toLowerCase], on the ASCII letters; every other byte is kept. *)
Definition lower_ascii (c : ascii) : ascii :=
  let n := nat_of_ascii c in
  if (Nat.leb 65 n && Nat.leb n 90)%bool then ascii_of_nat (n + 32) else c.

Fixpoint toLowerCase (s : string) : string :=
  match s with
  | EmptyString => EmptyString
  | String c s' => String (lower_ascii c) (toLowerCase s')
  end.

(** [s.includes(sub)]. *)
Fixpoint includes (s sub : string) : bool :=
  (String.prefix sub s ||
   match s with
   | EmptyString => false
   | String _ s' => includes s' sub
   end)%bool.

(* ------------------------------------------------------------------ *)
(** ** Constants and helpers *)

Inductive Offtake : Type :=
| hotWater
| districtHeat
| waterTreatmentFO
| atmosphericWater
| greenhouses
| foodBrewery
| dac.

Definition all_offtakes : list Offtake :=
  [hotWater; districtHeat; waterTreatmentFO; atmosphericWater;
   greenhouses; foodBrewery; dac].

Record Range : Type := mkRange { rmin : Q; rmax : Q }.

Definition L_PER_M3 : Q := 1000.
Definition GAL_TO_M3 : Q := 0.00378541.

Definition DAC_TCO2_PER_MW_YEAR : Q := 4550.
Definition DAC_WATER_M3_PER_MW_YEAR : Q := 160.
Definition DAC_RELEASE_TEMP_C : Q := 65.

Definition TREVI_L_PER_MW_YEAR_RANGE : Range := mkRange 255000000 365000000.
Definition TREVI_M3_PER_MW_YEAR_MID : Q :=
  (rmin TREVI_L_PER_MW_YEAR_RANGE + rmax TREVI_L_PER_MW_YEAR_RANGE) / 2 / L_PER_M3.

Definition URAVU_L_PER_MW_YEAR_RANGE : Range := mkRange 2000000 15000000.
Definition URAVU_M3_PER_MW_YEAR_MID : Q :=
  (rmin URAVU_L_PER_MW_YEAR_RANGE + rmax URAVU_L_PER_MW_YEAR_RANGE) / 2 / L_PER_M3.

Definition GREENHOUSE_MWH_PER_HA_YEAR_DEFAULT : Q := 4500.
Definition DEFAULT_MWH_PER_HOME_YEAR : Q := 14.5.

Definition clamp (n lo hi : Q) : Q := Qmin hi (Qmax lo n).

Definition ramp (tempC t0 t1 v0 v1 : Q) : Q :=
  if leb tempC t0 then v0
  else if leb t1 tempC then v1
  else
    let f := (tempC - t0) / (t1 - t0) in
    v0 + f * (v1 - v0).

Definition DAC_CO2_KT_RANGE : Range := mkRange 4.0 5.0.
Definition FO_CO2_KT_RANGE : Range := mkRange 0.5 1.5.
Definition FNB_CO2_KT_RANGE : Range := mkRange 0.3 0.8.
Definition AWH_CO2_KT_RANGE : Range := mkRange 0.1 0.3.
Definition GREENHOUSE_CO2_KT_PER_MWYR_RANGE : Range := mkRange 0.2 0.6.
Definition DISTRICT_HEAT_CO2_KT_RANGE : Range := mkRange 0.1 0.5.

(* ------------------------------------------------------------------ *)
(** ** Page state: the [useState] variables the derivations read *)

Record State : Type := mkState {
  offtake : Offtake;
  itLoadMW : Q;
  recoveryPct : Q;
  hoursPerYear : Q;
  dcReturnTempC : Q;
  mwhPerHomeYear : Q;
  phxGpcd : Q;
  intakeDistanceKm : Q;
  country : string;
  dcConfig : string;
  erfPercent : Q;
  dacMarketPrice : Q;
  dacProcurementPrice : Q;
  waterMarketPrice : Q;
  waterProductionCost : Q;
  thermalEnergyPrice : Q;
  electricityCost : Q;
  coolingCOP : Q;
  whrCapitalCostPerMW : Q;
  tippingFeePerMWh : Q;
  revenueSharePercent : Q
}.

(** The initial values of the state variables. *)
Definition initialState : State := {|
  offtake := dac;
  itLoadMW := 200;
  recoveryPct := 10;
  hoursPerYear := 8760;
  dcReturnTempC := 27;
  mwhPerHomeYear := DEFAULT_MWH_PER_HOME_YEAR;
  phxGpcd := 125;
  intakeDistanceKm := 0.5;
  country := "European average";
  dcConfig := "Ballard";
  erfPercent := 10;
  dacMarketPrice := 200;
  dacProcurementPrice := 150;
  waterMarketPrice := 4.5;
  waterProductionCost := 3.5;
  thermalEnergyPrice := 75;
  electricityCost := 284;
  coolingCOP := 3.3;
  whrCapitalCostPerMW := 0.25;
  tippingFeePerMWh := 10;
  revenueSharePercent := 30
|}.

(** The state after the sliders of the thermal inputs and the offtake
    selector were moved; every other variable keeps the value in [s]. *)
Definition withThermalInputs (k : Offtake) (load pct hours temp : Q)
    (s : State) : State := {|
  offtake := k;
  itLoadMW := load;
  recoveryPct := pct;
  hoursPerYear := hours;
  dcReturnTempC := temp;
  mwhPerHomeYear := mwhPerHomeYear s;
  phxGpcd := phxGpcd s;
  intakeDistanceKm := intakeDistanceKm s;
  country := country s;
  dcConfig := dcConfig s;
  erfPercent := erfPercent s;
  dacMarketPrice := dacMarketPrice s;
  dacProcurementPrice := dacProcurementPrice s;
  waterMarketPrice := waterMarketPrice s;
  waterProductionCost := waterProductionCost s;
  thermalEnergyPrice := thermalEnergyPrice s;
  electricityCost := electricityCost s;
  coolingCOP := coolingCOP s;
  whrCapitalCostPerMW := whrCapitalCostPerMW s;
  tippingFeePerMWh := tippingFeePerMWh s;
  revenueSharePercent := revenueSharePercent s
|}.

(** The state after another offtake was selected. *)
Definition selectOfftake (k : Offtake) (s : State) : State :=
  withThermalInputs k (itLoadMW s) (recoveryPct s) (hoursPerYear s)
                    (dcReturnTempC s) s.

(** The state after the facility selector and the ERF slider were set. *)
Definition withFacility (name : string) (erfPct : Q) (s : State) : State := {|
  offtake := offtake s;
  itLoadMW := itLoadMW s;
  recoveryPct := recoveryPct s;
  hoursPerYear := hoursPerYear s;
  dcReturnTempC := dcReturnTempC s;
  mwhPerHomeYear := mwhPerHomeYear s;
  phxGpcd := phxGpcd s;
  intakeDistanceKm := intakeDistanceKm s;
  country := country s;
  dcConfig := name;
  erfPercent := erfPct;
  dacMarketPrice := dacMarketPrice s;
  dacProcurementPrice := dacProcurementPrice s;
  waterMarketPrice := waterMarketPrice s;
  waterProductionCost := waterProductionCost s;
  thermalEnergyPrice := thermalEnergyPrice s;
  electricityCost := electricityCost s;
  coolingCOP := coolingCOP s;
  whrCapitalCostPerMW := whrCapitalCostPerMW s;
  tippingFeePerMWh := tippingFeePerMWh s;
  revenueSharePercent := revenueSharePercent s
|}.

(** The state after the two ownership sliders were set. *)
Definition withOwnershipTerms (fee share : Q) (s : State) : State := {|
  offtake := offtake s;
  itLoadMW := itLoadMW s;
  recoveryPct := recoveryPct s;
  hoursPerYear := hoursPerYear s;
  dcReturnTempC := dcReturnTempC s;
  mwhPerHomeYear := mwhPerHomeYear s;
  phxGpcd := phxGpcd s;
  intakeDistanceKm := intakeDistanceKm s;
  country := country s;
  dcConfig := dcConfig s;
  erfPercent := erfPercent s;
  dacMarketPrice := dacMarketPrice s;
  dacProcurementPrice := dacProcurementPrice s;
  waterMarketPrice := waterMarketPrice s;
  waterProductionCost := waterProductionCost s;
  thermalEnergyPrice := thermalEnergyPrice s;
  electricityCost := electricityCost s;
  coolingCOP := coolingCOP s;
  whrCapitalCostPerMW := whrCapitalCostPerMW s;
  tippingFeePerMWh := fee;
  revenueSharePercent := share
|}.


Definition dcSupplyTempC (s : State) : Q := dcReturnTempC s - 12.

(* ------------------------------------------------------------------ *)
(** ** Thermal core, performance ramps, offtake outputs *)

Record Core : Type := mkCore {
  recoverableHeatMW : Q;
  annualHeatMWh : Q;
  effectiveMWyr : Q;
  dcDeltaT : Q
}.

Definition core (s : State) : Core :=
  let recFrac := clamp (recoveryPct s) 0 100 / 100 in
  let recoverableHeatMW := itLoadMW s * recFrac in
  let annualHeatMWh := recoverableHeatMW * hoursPerYear s in
  let effectiveMWyr := recoverableHeatMW * (hoursPerYear s / 8760) in
  let dcDeltaT := Qmax 1 (dcReturnTempC s - dcSupplyTempC s) in
  mkCore recoverableHeatMW annualHeatMWh effectiveMWyr dcDeltaT.

Definition phxM3PerPersonYear (s : State) : Q := phxGpcd s * GAL_TO_M3 * 365.

Record Perf : Type := mkPerf {
  uravuFactor : Q;
  treviFactor : Q;
  dacFactor : Q;
  greenhouseFactor : Q
}.

Definition perf (s : State) : Perf :=
  let uravuFactor := ramp (dcReturnTempC s) 30 55 0.75 1.0 in
  let treviFactor := ramp (dcReturnTempC s) 30 45 0.85 1.0 in
  let dacFactor := ramp (dcReturnTempC s) 30 DAC_RELEASE_TEMP_C 0.5 1.0 in
  let greenhouseFactor := ramp (dcReturnTempC s) 30 60 0.9 1.0 in
  mkPerf uravuFactor treviFactor dacFactor greenhouseFactor.

Record Outputs : Type := mkOutputs {
  treviM3PerYear : Q;
  uravuM3PerYear : Q;
  greenhouseHa : Q;
  homesHeated : Q;
  dacTco2PerYear : Q;
  dacWaterM3PerYear : Q;
  treviPeoplePerYear : Q;
  uravuPeoplePerYear : Q;
  dacPeoplePerYear : Q
}.

Definition outputs (s : State) : Outputs :=
  let mw := recoverableHeatMW (core s) in
  let treviM3PerYear := mw * TREVI_M3_PER_MW_YEAR_MID * treviFactor (perf s) in
  let uravuM3PerYear := mw * URAVU_M3_PER_MW_YEAR_MID * uravuFactor (perf s) in
  let homesHeated :=
    if ltb 0 (mwhPerHomeYear s)
    then annualHeatMWh (core s) / mwhPerHomeYear s else 0 in
  let greenhouseHa :=
    (annualHeatMWh (core s) / GREENHOUSE_MWH_PER_HA_YEAR_DEFAULT)
    * greenhouseFactor (perf s) in
  let dacTco2PerYear :=
    effectiveMWyr (core s) * DAC_TCO2_PER_MW_YEAR * dacFactor (perf s) in
  let dacWaterM3PerYear := effectiveMWyr (core s) * DAC_WATER_M3_PER_MW_YEAR in
  let perPerson := phxM3PerPersonYear s in
  let treviPeoplePerYear :=
    if ltb 0 perPerson then treviM3PerYear / perPerson else 0 in
  let uravuPeoplePerYear :=
    if ltb 0 perPerson then uravuM3PerYear / perPerson else 0 in
  let dacPeoplePerYear :=
    if ltb 0 perPerson then dacWaterM3PerYear / perPerson else 0 in
  mkOutputs treviM3PerYear uravuM3PerYear greenhouseHa homesHeated
            dacTco2PerYear dacWaterM3PerYear
            treviPeoplePerYear uravuPeoplePerYear dacPeoplePerYear.

(** CO2 potential of the selected offtake. *)
Inductive PotentialCO2 : Type :=
| KindDac (tco2 : Q)
| KindRange (minKt midKt maxKt : Q).

(** [x || 0] on a finite number. *)
Definition orZero (x : Q) : Q := if eqb x 0 then 0 else x.

Definition scaledRange (r : Range) (mw : Q) : PotentialCO2 :=
  KindRange (rmin r * mw) ((rmin r + rmax r) / 2 * mw) (rmax r * mw).

Definition potentialCO2 (s : State) : option PotentialCO2 :=
  let mw := recoverableHeatMW (core s) in
  match offtake s with
  | dac => Some (KindDac (orZero (dacTco2PerYear (outputs s))))
  | waterTreatmentFO => Some (scaledRange FO_CO2_KT_RANGE mw)
  | foodBrewery => Some (scaledRange FNB_CO2_KT_RANGE mw)
  | atmosphericWater => Some (scaledRange AWH_CO2_KT_RANGE mw)
  | greenhouses => Some (scaledRange GREENHOUSE_CO2_KT_PER_MWYR_RANGE mw)
  | districtHeat => Some (scaledRange DISTRICT_HEAT_CO2_KT_RANGE mw)
  | hotWater => None
  end.

(* ------------------------------------------------------------------ *)
(** ** Piping cost by region *)

(** The imported region table [offData] is not part of the sources; it
    is an argument of the cost model.  A row is read through two of its
    cells only.  [__EMPTY] stands for the text [String(r.__EMPTY || "")]
    (empty when the cell is missing).  [__EMPTY_9] is classified by what
    the lookup does with it: a falsy cell, a truthy cell that [Number]
    converts to a finite number, or a truthy cell that does not. *)
Inductive Cell : Type :=
| Falsy
| Numeric (q : Q)
| NotNumeric.

Record Row : Type := mkRow {
  __EMPTY : string;
  __EMPTY_9 : Cell
}.

Record OffData : Type := mkOffData {
  raw_rows : list Row;
  cost_per_km : option Q
}.

Definition rowLoc (r : Row) : string := toLowerCase (__EMPTY r).

Definition matchesRegion (key : string) (r : Row) : bool :=
  (includes (rowLoc r) key || includes key (rowLoc r))%bool.

Definition isEuropeanAverage (r : Row) : bool :=
  includes (rowLoc r) "european average".

Definition findRegionRow (rows : list Row) (region : string) : option Row :=
  let key := toLowerCase region in
  match find (matchesRegion key) rows with
  | Some r => Some r
  | None => find isEuropeanAverage rows
  end.

(** [row && row.__EMPTY_9 ? Number(row.__EMPTY_9) : 0]. *)
Definition subsidyOf (row : option Row) : num :=
  match row with
  | Some r =>
      match __EMPTY_9 r with
      | Falsy => Fin 0
      | Numeric q => Fin q
      | NotNumeric => NaN
      end
  | None => Fin 0
  end.

(** [isFinite(subsidy) ? subsidy : 0]. *)
Definition finiteOrZero (a : num) : Q :=
  match a with Fin q => q | _ => 0 end.

Module OfftakeCosts.
Record t : Type := mk {
  totalCapex : Q;
  annualOpex : Q;
  pipingLengthKm : Q;
  sourceRow : option Row
}.
End OfftakeCosts.

Definition distanceCostPerMWperKm (d : OffData) : Q :=
  match cost_per_km d with
  | Some c => if eqb c 0 then 10000 else c
  | None => 10000
  end.

Definition offtakeCosts (d : OffData) (s : State) : OfftakeCosts.t :=
  let rows := raw_rows d in
  let row := findRegionRow rows (country s) in
  let subsidy := subsidyOf row in
  let baseCapexPerMW := 200000 * (1 - finiteOrZero subsidy) in
  let totalCapex :=
    (baseCapexPerMW + distanceCostPerMWperKm d * intakeDistanceKm s)
    * recoverableHeatMW (core s) in
  let annualOpex := totalCapex * 0.03 in
  OfftakeCosts.mk totalCapex annualOpex (intakeDistanceKm s) row.

(* ------------------------------------------------------------------ *)
(** ** DC savings: PUE, WUE, ERE, operational savings *)

Module Facility.
Record t : Type := mk {
  location : string;
  coolingType : string;
  ambientTempC : Q;
  electricityCostPerMWh : Q;
  pueBaseline : Q;
  pueMaxImprovement : Q;
  wueBaseline : Q;
  wueWithHR : Q;
  scenarioMatch : string;
  whrFriendliness : string
}.
End Facility.

Definition FACILITIES : list (string * Facility.t) :=
  [ ("Ballard",
     Facility.mk "Quincy, WA" "Direct evaporative air" 10 60
                 1.59 0.06 0.359 0 "air cooled" "Low (air exhaust, low grade)");
    ("Osgood",
     Facility.mk "Chicago, IL" "Indirect evap + mech backup" 13 80
                 1.65 0.09 0.45 0.35 "hybrid" "Medium");
    ("Fremont/Fairwater",
     Facility.mk "Northern CA" "Air-cooled chillers, closed-loop FW" 15 115
                 1.72 0.04 0 0 "air cooled" "High") ].

(** [table[key]] on the keys written in the table; a key that is not
    there gives [undefined].  The names every object inherits (see
    [objectPrototypeNames]) are not keys of the model. *)
Fixpoint lookup {A : Type} (key : string) (table : list (string * A)) : option A :=
  match table with
  | [] => None
  | (k, v) :: rest => if String.eqb key k then Some v else lookup key rest
  end.

Module DcSavings.
Record t : Type := mk {
  pueBaseline : option Q;
  pueWithHR : option Q;
  pueReduction : option Q;
  wueBaseline : option Q;
  wueWithHR : option Q;
  wueReduction : option Q;
  erf : Q;
  ere : option Q;
  annualOperationalSavings : num;
  configName : option string
}.
End DcSavings.

Definition tempAdjustmentFactor (s : State) : Q :=
  Qmax 0.85 (1 - (dcReturnTempC s - 25) / 100).

Definition baseEre (f : Facility.t) : Q :=
  let ct := Facility.coolingType f in
  if (includes ct "evaporative" || includes ct "Evaporative")%bool then 0.78
  else if (includes ct "evap" || includes ct "mech")%bool then 0.82
  else 0.75.

Definition annualOperationalSavings (s : State) : num :=
  let erf := erfPercent s / 100 in
  if ltb 0 (recoverableHeatMW (core s)) then
    let coolingEfficiencyFactor := div (Fin 1) (Fin (coolingCOP s)) in
    let energySavedMWh :=
      mul (Fin (recoverableHeatMW (core s) * erf * hoursPerYear s))
          coolingEfficiencyFactor in
    mul energySavedMWh (Fin (electricityCost s))
  else Fin 0.

(** The body of [dcSavings] once the facility is found. *)
Definition dcSavingsOf (facility : Facility.t) (s : State) : DcSavings.t :=
  let erf := erfPercent s / 100 in
  let pueBaseline := Facility.pueBaseline facility in
  let wueBaseline := Facility.wueBaseline facility in
  let taf := tempAdjustmentFactor s in
  let pueSavingsPercent := Facility.pueMaxImprovement facility in
  let pueWithHR :=
    if eqb erf 0 then pueBaseline
    else pueBaseline * (1 - pueSavingsPercent * erf * taf) in
  let wueWithHR :=
    if ltb 0 wueBaseline then
      let wueSavingsPercent := 0.15 in
      if eqb erf 0 then wueBaseline
      else wueBaseline * (1 - wueSavingsPercent * erf * taf)
    else 0 in
  let pueReduction :=
    if eqb pueBaseline 0 then None
    else Some ((pueBaseline - pueWithHR) / pueBaseline * 100) in
  let wueReduction :=
    if (negb (eqb wueBaseline 0) && ltb 0 wueBaseline)%bool
    then Some ((wueBaseline - wueWithHR) / wueBaseline * 100)
    else None in
  let ere := if ltb 0 erf then Some (baseEre facility * erf) else None in
  DcSavings.mk (Some pueBaseline) (Some pueWithHR) pueReduction
               (Some wueBaseline) (Some wueWithHR) wueReduction
               erf ere (annualOperationalSavings s)
               (Some (Facility.location facility)).

Definition dcSavings (s : State) : DcSavings.t :=
  match lookup (dcConfig s) FACILITIES with
  | None =>
      DcSavings.mk None None None None None None
                   (erfPercent s / 100) None (Fin 0) None
  | Some facility => dcSavingsOf facility s
  end.

(* ------------------------------------------------------------------ *)
(** ** CO2 comparison bars *)

Module BarDatum.
Record t : Type := mk {
  label : string;
  min : Q;
  max : Q;
  best : Q
}.
End BarDatum.

Definition mk (label : string) (r : Range) : BarDatum.t :=
  BarDatum.mk label (rmin r) (rmax r) ((rmin r + rmax r) / 2).

Definition co2Bars : list BarDatum.t :=
  [ mk "Direct Air Capture (DAC)" DAC_CO2_KT_RANGE;
    mk "FO Waste Water Treatment" FO_CO2_KT_RANGE;
    mk "Food & Beverage (EU)" FNB_CO2_KT_RANGE;
    mk "Atmospheric Water Capture" AWH_CO2_KT_RANGE;
    mk "Greenhouses & Agriculture" GREENHOUSE_CO2_KT_PER_MWYR_RANGE;
    mk "District Heating (proxy)" DISTRICT_HEAT_CO2_KT_RANGE ].

(* ------------------------------------------------------------------ *)
(** ** Ownership model comparison *)

Module PlantCosts.
(** The free-text [notes] of a row are not carried. *)
Record t : Type := mk {
  capexM : Q;
  opexPerYear : Q;
  unit : string
}.
End PlantCosts.

Definition OFFTAKE_PLANT_COSTS (k : Offtake) : PlantCosts.t :=
  match k with
  | waterTreatmentFO =>
      PlantCosts.mk 3.06 256477 "Waste Water Treatment System (FO) plant + heat pump"
  | atmosphericWater =>
      PlantCosts.mk 1.05 126000 "Atmospheric Water Capture System"
  | dac => PlantCosts.mk 4.0 350000 "DAC facility"
  | districtHeat => PlantCosts.mk 0.8 80000 "District heat connection"
  | greenhouses => PlantCosts.mk 0.3 30000 "Greenhouse heat connection"
  | hotWater => PlantCosts.mk 0.2 20000 "Hot water system"
  | foodBrewery => PlantCosts.mk 6.25 1710000 "Food & Brewery heat connection"
  end.

Module Ownership.
(** One ownership structure as the data-center operator sees it.
    [thirdPartyProfit] is absent in model A. *)
Record Model : Type := mkModel {
  totalCapex : Q;
  annualOpex : Q;
  annualRevenue : num;
  annualProfit : num;
  paybackYears : num;
  thirdPartyProfit : option Q
}.

Record t : Type := mk {
  plantCosts : PlantCosts.t;
  heatExchangerCapex : Q;
  pipingCapex : Q;
  offtakePlantCapex : Q;
  modelA : Model;
  modelB : Model;
  modelC : Model
}.
End Ownership.

(** The local [annualRevenue] of [ownershipComparison]: market revenue
    of the selected offtake. *)
Definition offtakeRevenue (s : State) : Q :=
  match offtake s with
  | dac =>
      dacTco2PerYear (outputs s) * (dacMarketPrice s - dacProcurementPrice s)
  | waterTreatmentFO =>
      treviM3PerYear (outputs s) * (waterMarketPrice s - waterProductionCost s)
  | atmosphericWater =>
      uravuM3PerYear (outputs s) * (waterMarketPrice s - waterProductionCost s)
  | hotWater | districtHeat | greenhouses | foodBrewery =>
      annualHeatMWh (core s) * thermalEnergyPrice s
  end.

Definition ownershipComparison (d : OffData) (s : State) : Ownership.t :=
  let plantCosts := OFFTAKE_PLANT_COSTS (offtake s) in
  let heatExchangerCapex :=
    recoverableHeatMW (core s) * whrCapitalCostPerMW s * 1000000 in
  let pipingCapex := Qabs (OfftakeCosts.totalCapex (offtakeCosts d s)) in
  let offtakePlantCapex := PlantCosts.capexM plantCosts * 1000000 in
  let offtakePlantOpex := PlantCosts.opexPerYear plantCosts in
  let annualRevenue := offtakeRevenue s in
  let savings := DcSavings.annualOperationalSavings (dcSavings s) in
  let modelA :=
    Ownership.mkModel
      (heatExchangerCapex + pipingCapex + offtakePlantCapex)
      offtakePlantOpex
      (add savings (Fin annualRevenue))
      (sub (add savings (Fin annualRevenue)) (Fin offtakePlantOpex))
      (div (Fin (heatExchangerCapex + pipingCapex + offtakePlantCapex))
           (sub (add savings (Fin annualRevenue)) (Fin offtakePlantOpex)))
      None in
  let annualTippingFee := annualHeatMWh (core s) * tippingFeePerMWh s in
  let modelB :=
    Ownership.mkModel
      heatExchangerCapex
      0
      (add savings (Fin annualTippingFee))
      (add savings (Fin annualTippingFee))
      (div (Fin heatExchangerCapex) (add savings (Fin annualTippingFee)))
      (Some (annualRevenue - offtakePlantOpex - annualTippingFee)) in
  let msRevenueShare := annualRevenue * (revenueSharePercent s / 100) in
  let modelC :=
    Ownership.mkModel
      heatExchangerCapex
      0
      (add savings (Fin msRevenueShare))
      (add savings (Fin msRevenueShare))
      (div (Fin heatExchangerCapex) (add savings (Fin msRevenueShare)))
      (Some (annualRevenue * (1 - revenueSharePercent s / 100)
             - offtakePlantOpex)) in
  Ownership.mk plantCosts heatExchangerCapex pipingCapex offtakePlantCapex
               modelA modelB modelC.

(* ------------------------------------------------------------------ *)
(** ** Payback tiles *)

Definition decimal (n : N) : string := NilZero.string_of_uint (N.to_uint n).

(** One decimal of a non-negative number: the nearest tenth, the larger
    one on a tie. *)
Definition fixed1 (x : Q) : string :=
  let n := Z.to_N (Qfloor (x * 10 + (1 # 2))) in
  decimal (n / 10) ++ "." ++ decimal (n mod 10).

(** [n.toFixed(1)], for magnitudes below 10^21 (above, the method
    switches to exponent notation). *)
Definition toFixed1 (n : num) : string :=
  match n with
  | NaN => "NaN"
  | PInf => "Infinity"
  | NInf => "-Infinity"
  | Fin q => if ltb q 0 then "-" ++ fixed1 (- q) else fixed1 q
  end.

(** The text of the "Payback Period" row of a model card. *)
Definition paybackTile (m : Ownership.Model) : string :=
  toFixed1 (Ownership.paybackYears m) ++ " yrs".

(** The em dash the page shows for an absent value. *)
Definition dash : string :=
  String "226" (String "128" (String "148" EmptyString)).

(* ------------------------------------------------------------------ *)
(** ** The page: every derived value, recomputed from the state *)

Module Derived.
Record t : Type := mk {
  core : Core;
  perf : Perf;
  outputs : Outputs;
  potentialCO2 : option PotentialCO2;
  offtakeCosts : OfftakeCosts.t;
  dcSavings : DcSavings.t;
  co2Bars : list BarDatum.t;
  ownershipComparison : Ownership.t
}.
End Derived.

Definition Page (d : OffData) (s : State) : Derived.t :=
  Derived.mk (core s) (perf s) (outputs s) (potentialCO2 s)
             (offtakeCosts d s) (dcSavings s) co2Bars
             (ownershipComparison d s).

(** A region table with no rows and no [cost_per_km] entry. *)
Definition noData : OffData := mkOffData [] None.

(* ------------------------------------------------------------------ *)
(** ** Scenarios and readings of the stated properties *)

(** The reading of C6 with both directions: the recoverable heat is at
    a boundary exactly when the clamped recovery percentage is. *)
Definition recoverable_boundaries_iff (s : State) : Prop :=
  0 <= itLoadMW s ->
  let c := clamp (recoveryPct s) 0 100 in
  let r := recoverableHeatMW (core s) in
  0 <= r <= itLoadMW s /\
  (r == 0 <-> c == 0) /\
  (r == itLoadMW s <-> c == 100).

(** The three ownership structures of a comparison. *)
Definition models (o : Ownership.t) : list Ownership.Model :=
  [Ownership.modelA o; Ownership.modelB o; Ownership.modelC o].

(** A payback nobody should be shown: a negative or an infinite number. *)
Definition negative_or_infinite (n : num) : Prop :=
  match n with
  | Fin q => q < 0
  | PInf | NInf => True
  | NaN => False
  end.

(** C1 as stated, in its weakest form: when revenue minus opex is not
    positive, the payback of the model is neither negative nor infinite. *)
Definition payback_guarded (m : Ownership.Model) : Prop :=
  forall p,
    Ownership.annualProfit m = Fin p -> p <= 0 ->
    ~ negative_or_infinite (Ownership.paybackYears m).

(** A 1 MW food-and-brewery project: the plant opex exceeds the revenue. *)
Definition smallBreweryState : State :=
  withThermalInputs foodBrewery 1 10 8760 27 initialState.

(** No heat reused by the data center and no tipping fee. *)
Definition noReuseNoFeeState : State :=
  withOwnershipTerms 0 30 (withFacility "Ballard" 0 initialState).

(** C2 as stated: for every offtake kind with a reference range, the
    table holds the range scaled by the recoverable heat of the state,
    that is, the values [potentialCO2] computes for that kind. *)
Definition co2Bars_scaled (d : OffData) (s : State) : Prop :=
  forall k lo mid hi,
    potentialCO2 (selectOfftake k s) = Some (KindRange lo mid hi) ->
    exists b,
      In b (Derived.co2Bars (Page d s)) /\
      BarDatum.min b == lo /\ BarDatum.max b == hi /\ BarDatum.best b == mid.

(** The (min, max) pairs of a table. *)
Definition barRanges (t : list BarDatum.t) : list Range :=
  map (fun b => mkRange (BarDatum.min b) (BarDatum.max b)) t.

(** A sample region table: a header row, two countries and the average. *)
Definition sampleData : OffData :=
  mkOffData
    [ mkRow "Location" NotNumeric;
      mkRow "Germany" (Numeric 0.3);
      mkRow "Sweden" Falsy;
      mkRow "European average" (Numeric 0.2) ]
    (Some 12000).

(* ------------------------------------------------------------------ *)
(** ** Further derived values of the page *)

Definition MWH_PER_MW_YEAR : Q := 8760.

(** Outputs per MW-year. *)
Record Normalized : Type := mkNormalized {
  treviM3_per_MWyr : Q;
  uravuM3_per_MWyr : Q;
  dacTco2_per_MWyr : Q;
  dacWaterM3_per_MWyr : Q;
  homes_per_MWyr : Q;
  greenhouseHa_per_MWyr : Q;
  phxPeoplePerMWyr_trevi : Q;
  phxPeoplePerMWyr_uravu : Q;
  phxPeoplePerMWyr_dac : Q
}.

Definition normalized (s : State) : Normalized :=
  let treviM3_per_MWyr := TREVI_M3_PER_MW_YEAR_MID * treviFactor (perf s) in
  let uravuM3_per_MWyr := URAVU_M3_PER_MW_YEAR_MID * uravuFactor (perf s) in
  let dacTco2_per_MWyr := DAC_TCO2_PER_MW_YEAR * dacFactor (perf s) in
  let dacWaterM3_per_MWyr := DAC_WATER_M3_PER_MW_YEAR in
  let homes_per_MWyr :=
    if ltb 0 (mwhPerHomeYear s) then MWH_PER_MW_YEAR / mwhPerHomeYear s else 0 in
  let greenhouseHa_per_MWyr :=
    (MWH_PER_MW_YEAR / GREENHOUSE_MWH_PER_HA_YEAR_DEFAULT)
    * greenhouseFactor (perf s) in
  let perPerson := phxM3PerPersonYear s in
  let phxPeoplePerMWyr_trevi :=
    if ltb 0 perPerson then treviM3_per_MWyr / perPerson else 0 in
  let phxPeoplePerMWyr_uravu :=
    if ltb 0 perPerson then uravuM3_per_MWyr / perPerson else 0 in
  let phxPeoplePerMWyr_dac :=
    if ltb 0 perPerson then dacWaterM3_per_MWyr / perPerson else 0 in
  mkNormalized treviM3_per_MWyr uravuM3_per_MWyr dacTco2_per_MWyr
               dacWaterM3_per_MWyr homes_per_MWyr greenhouseHa_per_MWyr
               phxPeoplePerMWyr_trevi phxPeoplePerMWyr_uravu
               phxPeoplePerMWyr_dac.

(** [a || 0] on a number that may be non-finite. *)
Definition numOrZero (a : num) : num :=
  match a with
  | NaN => Fin 0
  | Fin q => if eqb q 0 then Fin 0 else Fin q
  | PInf => PInf
  | NInf => NInf
  end.

(** Operational savings per MW of recoverable heat. *)
Definition savingsPerMW (s : State) : num :=
  let mw := recoverableHeatMW (core s) in
  if (eqb mw 0 || leb mw 0)%bool then Fin 0
  else div (numOrZero (DcSavings.annualOperationalSavings (dcSavings s)))
           (Fin mw).

(** The state after the return-temperature slider alone was moved. *)
Definition withReturnTemp (temp : Q) (s : State) : State :=
  withThermalInputs (offtake s) (itLoadMW s) (recoveryPct s)
                    (hoursPerYear s) temp s.

(** The state after the operating-hours slider alone was moved. *)
Definition withHours (hours : Q) (s : State) : State :=
  withThermalInputs (offtake s) (itLoadMW s) (recoveryPct s)
                    hours (dcReturnTempC s) s.

(** The state after the IT-load and recovery sliders were moved. *)
Definition withLoad (load pct : Q) (s : State) : State :=
  withThermalInputs (offtake s) load pct
                    (hoursPerYear s) (dcReturnTempC s) s.

(* ------------------------------------------------------------------ *)
(** ** Region information card and the list of locations *)

(** The lookup of the region information card: a row matches when its
    location contains the region name; the other direction is not tried. *)
Definition matchesRegionInfo (key : string) (r : Row) : bool :=
  includes (rowLoc r) key.

Definition findRegionRowInfo (rows : list Row) (region : string) : option Row :=
  let key := toLowerCase region in
  match find (matchesRegionInfo key) rows with
  | Some r => Some r
  | None => find isEuropeanAverage rows
  end.

(** [trim], on the ASCII white space (tab to carriage return, space);
    white space outside ASCII is kept. *)
Definition isSpace (c : ascii) : bool :=
  let n := nat_of_ascii c in
  ((Nat.leb 9 n && Nat.leb n 13) || Nat.eqb n 32)%bool.

Fixpoint trimStart (s : string) : string :=
  match s with
  | EmptyString => EmptyString
  | String c s' => if isSpace c then trimStart s' else s
  end.

Fixpoint trimEnd (s : string) : string :=
  match s with
  | EmptyString => EmptyString
  | String c s' =>
      match trimEnd s' with
      | EmptyString => if isSpace c then EmptyString else String c EmptyString
      | t => String c t
      end
  end.

Definition trim (s : string) : string := trimEnd (trimStart s).

Definition skipKeywords : list string :=
  [ "introduction"; "this"; "large"; "hence"; "should"; "note"; "in other";
    "also"; "for the"; "on the"; "the third"; "petter"; "so,"; "location" ].

(** The lookups and the list of locations over the string methods of
    the platform: [lower] stands for [toLowerCase], [trimF] for [trim]
    and [lenF] for [length].  The definitions above are their instances
    at the ASCII versions of this file, which agree with the platform on
    ASCII text. *)
Section StringMethods.

Variable lower : string -> string.
Variable trimF : string -> string.
Variable lenF : string -> nat.

Definition matchesRegionWith (key : string) (r : Row) : bool :=
  (includes (lower (__EMPTY r)) key || includes key (lower (__EMPTY r)))%bool.

Definition isEuropeanAverageWith (r : Row) : bool :=
  includes (lower (__EMPTY r)) "european average".

Definition findRegionRowWith (rows : list Row) (region : string) : option Row :=
  let key := lower region in
  match find (matchesRegionWith key) rows with
  | Some r => Some r
  | None => find isEuropeanAverageWith rows
  end.


Definition findRegionRowInfoWith (rows : list Row) (region : string) : option Row :=
  let key := lower region in
  match find (fun r => includes (lower (__EMPTY r)) key) rows with
  | Some r => Some r
  | None => find isEuropeanAverageWith rows
  end.

(** A trimmed location the list keeps: not empty, at least three
    characters, none of the keywords of the spreadsheet's prose. *)
Definition keepLocationWith (loc : string) : bool :=
  (negb (String.eqb loc "" || Nat.ltb (lenF loc) 3)
   && negb (existsb (fun k => includes (lower loc) k) skipKeywords))%bool.

(** The loop of [locations]: [seen] is the set, [out] the array. *)
Fixpoint locationsFromWith (rows : list Row) (seen out : list string) : list string :=
  match rows with
  | [] => out
  | r :: rest =>
      let loc := trimF (__EMPTY r) in
      if keepLocationWith loc then
        if existsb (String.eqb loc) seen then locationsFromWith rest seen out
        else locationsFromWith rest (loc :: seen) (out ++ [loc])%list
      else locationsFromWith rest seen out
  end.

Definition locationsWith (d : OffData) : list string :=
  locationsFromWith (raw_rows d) [] [].

End StringMethods.

(** The list of locations at the ASCII string methods. *)
Definition locations (d : OffData) : list string :=
  locationsWith toLowerCase trim String.length d.

(* ------------------------------------------------------------------ *)
(** ** Geometry of the CO2 bar chart *)

Module Chart.

Definition width : Q := 920.
Definition height : Q := 340.
Definition marginTop : Q := 24.
Definition marginRight : Q := 20.
Definition marginBottom : Q := 110.
Definition marginLeft : Q := 70.
Definition plotW : Q := width - marginLeft - marginRight.
Definition plotH : Q := height - marginTop - marginBottom.

(** [Math.max(0.5, ...data.map(d => d.max))]. *)
Definition maxY (data : list BarDatum.t) : Q :=
  fold_left Qmax (map BarDatum.max data) 0.5.

Definition y (data : list BarDatum.t) (v : Q) : Q :=
  marginTop + plotH * (1 - v / maxY data).

Definition index (i : nat) : Q := inject_Z (Z.of_nat i).

(** The step between bars; it is used for the bars of a non-empty
    table only. *)
Definition xStep (data : list BarDatum.t) : Q := plotW / index (length data).
Definition barW (data : list BarDatum.t) : Q := xStep data * 0.7.

(** The rectangle and the error bar drawn for the datum at position [i]. *)
Record Bar : Type := mkBar {
  cx : Q;
  x0 : Q;
  yBest : Q;
  yMin : Q;
  yMax : Q;
  baseY : Q;
  rectHeight : Q
}.

Definition bar (data : list BarDatum.t) (i : nat) (d : BarDatum.t) : Bar :=
  let cx := marginLeft + xStep data * index i + xStep data / 2 in
  let x0 := cx - barW data / 2 in
  let yBest := y data (BarDatum.best d) in
  let yMin := y data (BarDatum.min d) in
  let yMax := y data (BarDatum.max d) in
  let baseY := marginTop + plotH in
  mkBar cx x0 yBest yMin yMax baseY (baseY - yBest).

Definition bars (data : list BarDatum.t) : list Bar :=
  map (fun p => bar data (fst p) (snd p))
      (combine (seq 0 (length data)) data).

End Chart.

(* ------------------------------------------------------------------ *)
(** ** Input handlers of the page *)

(** The return-temperature slider stores [max(0, min(n, 79))]. *)
Definition onReturnTempSlider (n : Q) (s : State) : State :=
  withReturnTemp (Qmax 0 (Qmin n 79)) s.

(** The suitability label of the food-and-brewery card. *)
Definition processSuitability (s : State) : string :=
  if ltb (dcReturnTempC s) 80 then "Many steps need lift" else "More direct use".

Inductive Region : Type := US | Europe.

Module Location.
Record t : Type := mk {
  label : string;
  region : Region;
  ambientTempC : Q;
  electricityCostPerMWh : Q;
  gridEfKgPerKwh : Q
}.
End Location.

Definition DEFAULT_DC_CITY : string := "Frankfurt".

Definition DC_LOCATIONS : list (string * Location.t) :=
  [ ("Seattle", Location.mk "Seattle, WA" US 12 99.9 0.367);
    ("Chicago", Location.mk "Chicago, IL" US 11 118.1 0.367);
    ("Phoenix", Location.mk "Phoenix, AZ" US 20 122.3 0.367);
    ("Atlanta", Location.mk "Atlanta, GA" US 14 108.7 0.367);
    ("Frankfurt", Location.mk "Frankfurt, Germany" Europe 12 284 0.332);
    ("Newport", Location.mk "Newport, UK" Europe 10 442 0.217);
    ("Agriport A7", Location.mk "Agriport A7, Netherlands" Europe 11 221 0.253);
    ("Zaragoza", Location.mk "Zaragoza, Spain" Europe 13 138 0.153) ].

(** The state with another facility name and electricity cost. *)
Definition withSelection (name : string) (cost : Q) (s : State) : State := {|
  offtake := offtake s;
  itLoadMW := itLoadMW s;
  recoveryPct := recoveryPct s;
  hoursPerYear := hoursPerYear s;
  dcReturnTempC := dcReturnTempC s;
  mwhPerHomeYear := mwhPerHomeYear s;
  phxGpcd := phxGpcd s;
  intakeDistanceKm := intakeDistanceKm s;
  country := country s;
  dcConfig := name;
  erfPercent := erfPercent s;
  dacMarketPrice := dacMarketPrice s;
  dacProcurementPrice := dacProcurementPrice s;
  waterMarketPrice := waterMarketPrice s;
  waterProductionCost := waterProductionCost s;
  thermalEnergyPrice := thermalEnergyPrice s;
  electricityCost := cost;
  coolingCOP := coolingCOP s;
  whrCapitalCostPerMW := whrCapitalCostPerMW s;
  tippingFeePerMWh := tippingFeePerMWh s;
  revenueSharePercent := revenueSharePercent s
|}.

(** The page state together with the two variables of the location
    selector, which no derivation above reads. *)
Record Ui : Type := mkUi {
  page : State;
  dcCity : string;
  gridEfKgPerKwh : Q
}.

Definition initialUi : Ui :=
  mkUi initialState DEFAULT_DC_CITY 0.332.

(** [onChange] of the facility selector. *)
Definition onFacilityChange (name : string) (u : Ui) : Ui :=
  let cost :=
    match lookup name FACILITIES with
    | Some facility => Facility.electricityCostPerMWh facility
    | None => electricityCost (page u)
    end in
  mkUi (withSelection name cost (page u)) (dcCity u) (gridEfKgPerKwh u).

(** [onChange] of the location selector. *)
Definition onCityChange (newCity : string) (u : Ui) : Ui :=
  match lookup newCity DC_LOCATIONS with
  | Some loc =>
      mkUi (withSelection (dcConfig (page u))
                          (Location.electricityCostPerMWh loc) (page u))
           newCity (Location.gridEfKgPerKwh loc)
  | None => mkUi (page u) newCity (gridEfKgPerKwh u)
  end.

(* ------------------------------------------------------------------ *)
(** ** Number formatting *)

Fixpoint zeros (n : nat) : string :=
  match n with
  | O => EmptyString
  | S n' => String "0" (zeros n')
  end.

Definition padStart (width : nat) (s : string) : string :=
  zeros (width - String.length s) ++ s.

(** [d] decimals of a non-negative number: the nearest multiple of
    10^-d, the larger one on a tie. *)
Definition fixedDigits (d : nat) (x : Q) : string :=
  let scale := (10 ^ N.of_nat d)%N in
  let n := Z.to_N (Qfloor (x * inject_Z (Z.of_N scale) + (1 # 2))) in
  match d with
  | O => decimal n
  | S _ => decimal (n / scale) ++ "." ++ padStart d (decimal (n mod scale))
  end.

(** [n.toFixed(d)], for magnitudes below 10^21. *)
Definition toFixed (d : nat) (n : num) : string :=
  match n with
  | NaN => "NaN"
  | PInf => "Infinity"
  | NInf => "-Infinity"
  | Fin q => if ltb q 0 then "-" ++ fixedDigits d (- q) else fixedDigits d q
  end.

(** [fmtOrDash(value, decimals)] of the reporting table. *)
Definition fmtOrDash (value : option num) (decimals : nat) : string :=
  match value with
  | None => dash
  | Some NaN => dash
  | Some v => toFixed decimals v
  end.

(** [value ? value.toFixed(d) : dash] of the reporting tiles: a value of
    0 is falsy too. *)
Definition tileOrDash (value : option Q) (d : nat) : string :=
  match value with
  | None => dash
  | Some v => if eqb v 0 then dash else toFixed d (Fin v)
  end.

Definition ofQ (value : option Q) : option num :=
  match value with Some v => Some (Fin v) | None => None end.

(* ------------------------------------------------------------------ *)
(** ** The playground page *)

Module V2.

Record State : Type := mk {
  mw : Q;
  hours : Q;
  whrCapitalCostPerMW : Q
}.

Definition initialState : State := mk 50 4000 0.25.

Definition annual (s : State) : Q := mw s * hours s.

Definition annualOperationalSavings (s : State) : Q := annual s * 35.

(** [annualOperationalSavings && annualOperationalSavings > 0]. *)
Definition savingsPositive (s : State) : bool :=
  (negb (eqb (annualOperationalSavings s) 0)
   && ltb 0 (annualOperationalSavings s))%bool.

(** The payback of the "1 MW System" card. *)
Definition paybackOneMW (s : State) : string :=
  if savingsPositive s then
    toFixed 1 (div (Fin (whrCapitalCostPerMW s * 1000000))
                   (Fin (annualOperationalSavings s))) ++ " years"
  else dash.

(** The payback of the "Your Case" card. *)
Definition paybackYourCase (s : State) : string :=
  if savingsPositive s then
    toFixed 1 (div (Fin (whrCapitalCostPerMW s * mw s * 1000000))
                   (Fin (annualOperationalSavings s * mw s))) ++ " years"
  else dash.

End V2.

(* ------------------------------------------------------------------ *)
(** ** The earlier calculator page *)

Module V1.

(** The return temperature is derived from the facility temperature. *)
Definition dcReturnTempC (dcFacilityTempC : Q) : Q :=
  Qmax 0 (dcFacilityTempC - 12).

Definition dcDeltaT (dcFacilityTempC : Q) : Q :=
  Qmax 1 (dcFacilityTempC - dcReturnTempC dcFacilityTempC).

Definition DAC_WATER_M3_PER_TCO2 : Q := 1.6.

Definition dacFactor (dcFacilityTempC : Q) : Q :=
  ramp dcFacilityTempC 30 DAC_RELEASE_TEMP_C 0.5 1.0.

Definition dacTco2PerYear (effectiveMWyr dcFacilityTempC : Q) : Q :=
  effectiveMWyr * DAC_TCO2_PER_MW_YEAR * dacFactor dcFacilityTempC.

(** The water by-product is derived from the captured CO2. *)
Definition dacWaterM3PerYear (effectiveMWyr dcFacilityTempC : Q) : Q :=
  dacTco2PerYear effectiveMWyr dcFacilityTempC * DAC_WATER_M3_PER_TCO2.

End V1.

(* ------------------------------------------------------------------ *)
(** ** Payback of the savings cards, and what a match is *)

(** [a > 0] on a number that may be non-finite. *)
Definition numGt0 (a : num) : bool :=
  match a with
  | Fin q => ltb 0 q
  | PInf => true
  | NInf | NaN => false
  end.

(** The payback text of the "1 MW system" and "10 MW example" cards of
    the savings section. *)
Definition savingsPaybackTile (s : State) : string :=
  if numGt0 (savingsPerMW s) then
    toFixed 1 (div (Fin (whrCapitalCostPerMW s * 1000000)) (savingsPerMW s))
    ++ " yrs"
  else dash.

(** [sub] occurs in [s]. *)
Definition contains (s sub : string) : Prop :=
  exists pre post, s = pre ++ sub ++ post.

(** The property names every plain object inherits: indexing an object
    literal with one of them gives the inherited value, not [undefined]. *)
Definition objectPrototypeNames : list string :=
  [ "constructor"; "__proto__"; "hasOwnProperty"; "isPrototypeOf";
    "propertyIsEnumerable"; "toLocaleString"; "toString"; "valueOf";
    "__defineGetter__"; "__defineSetter__"; "__lookupGetter__";
    "__lookupSetter__" ].

(* ================================================================== *)
(** * Properties *)

(* ------------------------------------------------------------------ *)
(** ** Comparisons reflect the order of [Q] *)

Lemma leb_true (a b : Q) : leb a b = true <-> a <= b.
Proof. unfold leb. apply Qle_bool_iff. Qed.

Lemma leb_false (a b : Q) : leb a b = false <-> b < a.
Proof.
  unfold leb. split; intro H.
  - apply Qnot_le_lt. intro Hle. apply Qle_bool_iff in Hle. congruence.
  - destruct (Qle_bool a b) eqn:E; [|reflexivity].
    apply Qle_bool_iff in E. lra.
Qed.

Lemma ltb_true (a b : Q) : ltb a b = true <-> a < b.
Proof.
  unfold ltb. rewrite negb_true_iff. apply (leb_false b a).
Qed.

Lemma ltb_false (a b : Q) : ltb a b = false <-> b <= a.
Proof.
  unfold ltb. rewrite negb_false_iff. apply (leb_true b a).
Qed.

Lemma eqb_true (a b : Q) : eqb a b = true <-> a == b.
Proof. unfold eqb. apply Qeq_bool_iff. Qed.

Lemma eqb_false (a b : Q) : eqb a b = false <-> ~ a == b.
Proof.
  unfold eqb. split; intro H.
  - now apply Qeq_bool_neq.
  - destruct (Qeq_bool a b) eqn:E; [|reflexivity].
    apply Qeq_bool_iff in E. contradiction.
Qed.

(** Split on the first comparison of the goal and record its outcome
    as an order fact. *)
Ltac split_cmp :=
  match goal with
  | |- context [leb ?a ?b] =>
      let E := fresh "E" in
      destruct (leb a b) eqn:E;
      [apply leb_true in E | apply leb_false in E]
  | |- context [ltb ?a ?b] =>
      let E := fresh "E" in
      destruct (ltb a b) eqn:E;
      [apply ltb_true in E | apply ltb_false in E]
  | |- context [eqb ?a ?b] =>
      let E := fresh "E" in
      destruct (eqb a b) eqn:E;
      [apply eqb_true in E | apply eqb_false in E]
  end.

Lemma Qmax_cases (a b : Q) :
  (a <= b /\ Qmax a b == b) \/ (b <= a /\ Qmax a b == a).
Proof.
  destruct (Q.max_spec a b) as [[H1 H2]|[H1 H2]]; [left|right];
    split; auto; lra.
Qed.

Lemma Qmin_cases (a b : Q) :
  (a <= b /\ Qmin a b == a) \/ (b <= a /\ Qmin a b == b).
Proof.
  destruct (Q.min_spec a b) as [[H1 H2]|[H1 H2]]; [left|right];
    split; auto; lra.
Qed.

(** [clamp] keeps a value inside its interval. *)
Lemma clamp_range (n lo hi : Q) :
  lo <= hi -> lo <= clamp n lo hi <= hi.
Proof.
  intro H. unfold clamp.
  destruct (Qmax_cases lo n) as [[A B]|[A B]];
    destruct (Qmin_cases hi (Qmax lo n)) as [[C D]|[C D]]; lra.
Qed.

Lemma clamp_inside (n lo hi : Q) :
  lo <= n <= hi -> clamp n lo hi == n.
Proof.
  intro H. unfold clamp.
  destruct (Qmax_cases lo n) as [[A B]|[A B]];
    destruct (Qmin_cases hi (Qmax lo n)) as [[C D]|[C D]]; lra.
Qed.

(* ------------------------------------------------------------------ *)
(** ** Performance ramp *)

Section Ramp.

Variables x0 x1 y0 y1 : Q.
Hypothesis Hx : x0 < x1.
Hypothesis Hy : y0 <= y1.

(** The interpolation weight lies in the unit interval. *)
Lemma ramp_weight (x : Q) :
  x0 <= x <= x1 -> 0 <= (x - x0) / (x1 - x0) <= 1.
Proof.
  intros [Ha Hb]. split.
  - apply Qle_shift_div_l; lra.
  - apply Qle_shift_div_r; lra.
Qed.

Lemma ramp_weight_mono (x x' : Q) :
  x <= x' -> (x - x0) / (x1 - x0) <= (x' - x0) / (x1 - x0).
Proof.
  intro H. unfold Qdiv. apply Qmult_le_compat_r; [lra|].
  apply Qlt_le_weak, Qinv_lt_0_compat. lra.
Qed.

Lemma ramp_below (x : Q) : x <= x0 -> ramp x x0 x1 y0 y1 = y0.
Proof.
  intro H. unfold ramp. apply leb_true in H. now rewrite H.
Qed.

Lemma ramp_above (x : Q) : x1 <= x -> ramp x x0 x1 y0 y1 = y1.
Proof.
  intro H. unfold ramp.
  assert (Hlt : x0 < x) by lra.
  apply leb_false in Hlt. rewrite Hlt.
  apply leb_true in H. now rewrite H.
Qed.

Lemma ramp_between (x : Q) :
  x0 < x < x1 ->
  ramp x x0 x1 y0 y1 = y0 + (x - x0) / (x1 - x0) * (y1 - y0).
Proof.
  intros [Ha Hb]. unfold ramp.
  apply leb_false in Ha. apply leb_false in Hb. now rewrite Ha, Hb.
Qed.

Lemma ramp_bounded (x : Q) : y0 <= ramp x x0 x1 y0 y1 <= y1.
Proof.
  unfold ramp. repeat split_cmp; try lra.
  assert (W : 0 <= (x - x0) / (x1 - x0) <= 1) by (apply ramp_weight; lra).
  set (f := (x - x0) / (x1 - x0)) in *. nra.
Qed.

Lemma ramp_monotone (x x' : Q) :
  x <= x' -> ramp x x0 x1 y0 y1 <= ramp x' x0 x1 y0 y1.
Proof.
  intro H.
  destruct (Qlt_le_dec x0 x) as [Lx|Lx].
  2:{ rewrite (ramp_below x Lx). apply ramp_bounded. }
  destruct (Qlt_le_dec x' x1) as [Ux|Ux].
  2:{ rewrite (ramp_above x' Ux). apply ramp_bounded. }
  rewrite (ramp_between x), (ramp_between x') by lra.
  pose proof (ramp_weight_mono x x' H) as M.
  set (f := (x - x0) / (x1 - x0)) in *.
  set (f' := (x' - x0) / (x1 - x0)) in *. nra.
Qed.

End Ramp.

(** C3.  For a ramp tuple with [x0 < x1] and [y0 <= y1], [ramp] is
    non-decreasing in [x], stays inside [[y0, y1]], equals [y0] at and
    below [x0], equals [y1] at and above [x1], and is the linear
    interpolation of the two endpoints strictly between them. *)
Theorem ramp_monotone_clamped (x0 x1 y0 y1 : Q) (Hx : x0 < x1) (Hy : y0 <= y1) :
  (forall x x', x <= x' -> ramp x x0 x1 y0 y1 <= ramp x' x0 x1 y0 y1) /\
  (forall x, y0 <= ramp x x0 x1 y0 y1 <= y1) /\
  (forall x, x <= x0 -> ramp x x0 x1 y0 y1 = y0) /\
  (forall x, x1 <= x -> ramp x x0 x1 y0 y1 = y1) /\
  (forall x, x0 < x < x1 ->
     ramp x x0 x1 y0 y1 = y0 + (x - x0) / (x1 - x0) * (y1 - y0)).
Proof.
  repeat split.
  - intros x x' H. now apply ramp_monotone.
  - now apply ramp_bounded.
  - now apply ramp_bounded.
  - intros x H. now apply ramp_below.
  - intros x H. now apply ramp_above.
  - intros x H. now apply ramp_between.
Qed.

(** The DAC ramp between 30 and 65 degrees, at 47 and 50 degrees. *)
Lemma ramp_monotone_clamped_witness :
  (30 < 65 /\ 0.5 <= 1) /\
  ramp 47 30 65 0.5 1 <= ramp 50 30 65 0.5 1.
Proof.
  split.
  - split; [reflexivity | discriminate].
  - destruct (ramp_monotone_clamped 30 65 0.5 1) as [M _].
    + reflexivity.
    + discriminate.
    + apply M. discriminate.
Defined.

(* ------------------------------------------------------------------ *)
(** ** Thermal core *)

Lemma recoverable_unfold (s : State) :
  recoverableHeatMW (core s)
  = itLoadMW s * (clamp (recoveryPct s) 0 100 / 100).
Proof. reflexivity. Qed.

(** C5.  With an IT load of 50 MW, 10 % recovery, 8760 h per year, the
    DAC offtake and a return temperature of 65 degrees, whatever the
    other inputs are: 5 MW of recoverable heat, 5 effective MW-years, a
    DAC performance factor of 1 and 5 x 4550 x 1 = 22750 tCO2 a year. *)
Theorem dac_scenario_values (s : State) :
  let s' := withThermalInputs dac 50 10 8760 65 s in
  recoverableHeatMW (core s') == 5 /\
  effectiveMWyr (core s') == 5 /\
  dacFactor (perf s') == 1 /\
  dacTco2PerYear (outputs s') == 5 * 4550 * 1 /\
  dacTco2PerYear (outputs s') == 22750.
Proof.
  cbv zeta. repeat split; vm_compute; reflexivity.
Qed.

(** With no IT load the recoverable heat is 0 at a recovery percentage
    of 50: the heat is at both boundaries, the percentage at neither. *)
Lemma recoverable_boundaries_iff_fails :
  ~ recoverable_boundaries_iff (withThermalInputs dac 0 50 8760 27 initialState).
Proof.
  unfold recoverable_boundaries_iff. intro H.
  destruct H as [_ [[H0 _] _]].
  - vm_compute. discriminate.
  - assert (C : clamp 50 0 100 == 0) by (apply H0; vm_compute; reflexivity).
    vm_compute in C. discriminate.
Qed.

(** C6 (amended).  For a non-negative IT load the recoverable heat lies
    between 0 and the IT load; it is 0 when the clamped recovery
    percentage is 0 and the full IT load when it is 100; for a positive
    IT load the converses hold too. *)
Theorem recoverable_heat_bounds (s : State) (Hload : 0 <= itLoadMW s) :
  let c := clamp (recoveryPct s) 0 100 in
  let r := recoverableHeatMW (core s) in
  0 <= r <= itLoadMW s /\
  (c == 0 -> r == 0) /\
  (c == 100 -> r == itLoadMW s) /\
  (0 < itLoadMW s -> (r == 0 -> c == 0) /\ (r == itLoadMW s -> c == 100)).
Proof.
  cbv zeta. rewrite recoverable_unfold.
  assert (Hc : 0 <= clamp (recoveryPct s) 0 100 <= 100)
    by (apply clamp_range; discriminate).
  set (c := clamp (recoveryPct s) 0 100) in *.
  set (L := itLoadMW s) in *.
  assert (Hdiv : c / 100 == c * (1 # 100)) by (unfold Qdiv; reflexivity).
  rewrite Hdiv.
  repeat split.
  - nra.
  - nra.
  - intro E. rewrite E. lra.
  - intro E. rewrite E. lra.
  - intro E. nra.
  - intro E. nra.
Qed.

Lemma recoverable_heat_bounds_witness :
  0 <= itLoadMW initialState /\
  0 <= recoverableHeatMW (core initialState) <= itLoadMW initialState.
Proof.
  split.
  - discriminate.
  - apply (recoverable_heat_bounds initialState). discriminate.
Defined.

(** C10.  The supply temperature is the return temperature minus 12,
    so the loop temperature difference is 12 in every state; the
    difference handed to [max(1, .)] is above the floor of 1. *)
Theorem dcDeltaT_constant (s : State) :
  dcDeltaT (core s) == 12 /\
  dcSupplyTempC s == dcReturnTempC s - 12 /\
  1 < dcReturnTempC s - dcSupplyTempC s.
Proof.
  unfold core, dcSupplyTempC. cbn [dcDeltaT].
  destruct (Qmax_cases 1 (dcReturnTempC s - (dcReturnTempC s - 12)))
    as [[A B]|[A B]]; repeat split; lra.
Qed.

(* ------------------------------------------------------------------ *)
(** ** DC efficiency: PUE and WUE with heat reuse *)

Lemma dcSavings_found (s : State) (f : Facility.t) :
  lookup (dcConfig s) FACILITIES = Some f -> dcSavings s = dcSavingsOf f s.
Proof. unfold dcSavings. now intros ->. Qed.

(** The two branches of the PUE formula agree: at [erf = 0] the
    product form is the baseline. *)
Lemma pueWithHR_of (f : Facility.t) (s : State) :
  exists p,
    DcSavings.pueWithHR (dcSavingsOf f s) = Some p /\
    p == Facility.pueBaseline f
         * (1 - Facility.pueMaxImprovement f * (erfPercent s / 100)
                * tempAdjustmentFactor s).
Proof.
  unfold dcSavingsOf. cbn [DcSavings.pueWithHR].
  split_cmp; eexists; (split; [reflexivity|]).
  - rewrite E. ring.
  - reflexivity.
Qed.

Lemma pueWithHR_no_reuse (f : Facility.t) (s : State) :
  erfPercent s / 100 == 0 ->
  DcSavings.pueWithHR (dcSavingsOf f s) = Some (Facility.pueBaseline f).
Proof.
  intro H. unfold dcSavingsOf. cbn [DcSavings.pueWithHR].
  apply eqb_true in H. now rewrite H.
Qed.

(** C4.  The temperature factor is [max(0.85, 1 - (T - 25)/100)]; for
    every facility of the table and every ERF the PUE with heat reuse is
    [pueBaseline * (1 - pueMaxImprovement * erf * factor)], and it is
    the baseline itself when [erf = 0]. *)
Theorem pue_with_heat_reuse (s : State) (f : Facility.t)
    (Hf : lookup (dcConfig s) FACILITIES = Some f) :
  let erf := erfPercent s / 100 in
  tempAdjustmentFactor s = Qmax 0.85 (1 - (dcReturnTempC s - 25) / 100) /\
  DcSavings.erf (dcSavings s) = erf /\
  DcSavings.pueBaseline (dcSavings s) = Some (Facility.pueBaseline f) /\
  (exists p,
     DcSavings.pueWithHR (dcSavings s) = Some p /\
     p == Facility.pueBaseline f
          * (1 - Facility.pueMaxImprovement f * erf * tempAdjustmentFactor s)) /\
  (erf == 0 ->
     DcSavings.pueWithHR (dcSavings s) = Some (Facility.pueBaseline f)).
Proof.
  cbv zeta. rewrite (dcSavings_found s f Hf).
  split; [reflexivity|]. split; [reflexivity|]. split; [reflexivity|].
  split.
  - apply pueWithHR_of.
  - apply pueWithHR_no_reuse.
Qed.

(** The initial state: the Ballard facility at an ERF of 10 %. *)
Lemma pue_with_heat_reuse_witness :
  exists f,
    lookup (dcConfig initialState) FACILITIES = Some f /\
    exists p,
      DcSavings.pueWithHR (dcSavings initialState) = Some p /\
      p == Facility.pueBaseline f
           * (1 - Facility.pueMaxImprovement f * (erfPercent initialState / 100)
                  * tempAdjustmentFactor initialState).
Proof.
  eexists. split.
  - reflexivity.
  - eapply (pue_with_heat_reuse initialState). reflexivity.
Defined.

Lemma wue_dry_cooled_of (f : Facility.t) (s : State) :
  Facility.wueBaseline f == 0 ->
  DcSavings.wueWithHR (dcSavingsOf f s) = Some 0 /\
  DcSavings.wueReduction (dcSavingsOf f s) = None.
Proof.
  intro H. unfold dcSavingsOf.
  cbn [DcSavings.wueWithHR DcSavings.wueReduction].
  assert (L : ltb 0 (Facility.wueBaseline f) = false)
    by (apply ltb_false; lra).
  rewrite L, andb_false_r. now split.
Qed.

Lemma wue_water_cooled_of (f : Facility.t) (s : State) :
  0 < Facility.wueBaseline f ->
  exists w,
    DcSavings.wueWithHR (dcSavingsOf f s) = Some w /\
    w == Facility.wueBaseline f
         * (1 - 0.15 * (erfPercent s / 100) * tempAdjustmentFactor s).
Proof.
  intro H. unfold dcSavingsOf. cbn [DcSavings.wueWithHR].
  apply ltb_true in H. rewrite H.
  split_cmp; eexists; (split; [reflexivity|]).
  - rewrite E. ring.
  - reflexivity.
Qed.

(** C7.  For a facility of the table with a WUE baseline of 0 (dry
    cooling) and any ERF, the WUE with heat reuse is 0 and the WUE
    reduction is absent ([null]); with a positive baseline the WUE with
    heat reuse is the baseline reduced by 15 % per 100 % ERF, scaled by
    the temperature factor. *)
Theorem wue_with_heat_reuse (s : State) (f : Facility.t)
    (Hf : lookup (dcConfig s) FACILITIES = Some f) :
  let erf := erfPercent s / 100 in
  (Facility.wueBaseline f == 0 ->
     DcSavings.wueWithHR (dcSavings s) = Some 0 /\
     DcSavings.wueReduction (dcSavings s) = None) /\
  (0 < Facility.wueBaseline f ->
     exists w,
       DcSavings.wueWithHR (dcSavings s) = Some w /\
       w == Facility.wueBaseline f
            * (1 - 0.15 * erf * tempAdjustmentFactor s)).
Proof.
  cbv zeta. rewrite (dcSavings_found s f Hf). split.
  - apply wue_dry_cooled_of.
  - apply wue_water_cooled_of.
Qed.

(** The dry-cooled Fremont/Fairwater facility at an ERF of 40 %. *)
Lemma wue_with_heat_reuse_witness :
  let s := withFacility "Fremont/Fairwater" 40 initialState in
  exists f,
    lookup (dcConfig s) FACILITIES = Some f /\
    Facility.wueBaseline f == 0 /\
    DcSavings.wueWithHR (dcSavings s) = Some 0 /\
    DcSavings.wueReduction (dcSavings s) = None.
Proof.
  cbv zeta. eexists. split; [reflexivity|]. split; [reflexivity|].
  eapply (wue_with_heat_reuse (withFacility "Fremont/Fairwater" 40 initialState)).
  - reflexivity.
  - reflexivity.
Defined.

(* ------------------------------------------------------------------ *)
(** ** Piping cost and the region lookup *)

Lemma findRegionRow_sound (rows : list Row) (region : string) (r : Row) :
  findRegionRow rows region = Some r ->
  In r rows /\
  (matchesRegion (toLowerCase region) r = true \/
   ((forall r', In r' rows -> matchesRegion (toLowerCase region) r' = false) /\
    isEuropeanAverage r = true)).
Proof.
  unfold findRegionRow.
  destruct (find (matchesRegion (toLowerCase region)) rows) as [r1|] eqn:F.
  - intros [= <-]. apply find_some in F. destruct F as [Hin Hm]. auto.
  - intro G. apply find_some in G. destruct G as [Hin Hm].
    split; [assumption|]. right. split; [|assumption].
    intros r' Hr'. exact (find_none _ _ F r' Hr').
Qed.

Lemma findRegionRow_fallback (rows : list Row) (region : string) (r0 : Row) :
  In r0 rows -> isEuropeanAverage r0 = true ->
  (forall r', In r' rows -> matchesRegion (toLowerCase region) r' = false) ->
  exists r, findRegionRow rows region = Some r /\ isEuropeanAverage r = true.
Proof.
  intros Hin Havg Hnone. unfold findRegionRow.
  destruct (find (matchesRegion (toLowerCase region)) rows) as [r1|] eqn:F.
  - apply find_some in F. destruct F as [Hin1 Hm1].
    rewrite (Hnone r1 Hin1) in Hm1. discriminate.
  - destruct (find isEuropeanAverage rows) as [r|] eqn:G.
    + exists r. split; [reflexivity|]. now apply find_some in G.
    + rewrite (find_none _ _ G r0 Hin) in Havg. discriminate.
Qed.

Lemma findRegionRow_none (rows : list Row) (region : string) :
  findRegionRow rows region = None ->
  forall r, In r rows ->
    matchesRegion (toLowerCase region) r = false /\ isEuropeanAverage r = false.
Proof.
  unfold findRegionRow.
  destruct (find (matchesRegion (toLowerCase region)) rows) as [r1|] eqn:F.
  - discriminate.
  - intros G r Hin. split.
    + exact (find_none _ _ F r Hin).
    + exact (find_none _ _ G r Hin).
Qed.

Lemma prefix_nil (s : string) : String.prefix "" s = true.
Proof. destruct s; reflexivity. Qed.

Lemma prefix_cons (c : ascii) (p s : string) :
  String.prefix (String c p) (String c s) = String.prefix p s.
Proof.
  cbn [String.prefix]. destruct (ascii_dec c c); [reflexivity | contradiction].
Qed.

Lemma prefix_append (p s : string) :
  String.prefix p s = true <-> exists post, s = p ++ post.
Proof.
  revert s. induction p as [|c p IH]; intro s.
  - split; [intros _; now exists s | intros _; apply prefix_nil].
  - destruct s as [|c' s].
    + cbn. split; [discriminate | intros [post H]; discriminate].
    + cbn [String.prefix append]. destruct (ascii_dec c c') as [<-|Hne].
      * rewrite IH. split; intros [post H]; exists post; congruence.
      * split; [discriminate | intros [post H]; congruence].
Qed.

(** [includes] decides occurrence. *)
Lemma includes_contains (s sub : string) :
  includes s sub = true <-> contains s sub.
Proof.
  unfold contains. induction s as [|c s IH].
  - cbn [includes]. rewrite orb_false_r, prefix_append. split.
    + intros [post H]. exists "", post. exact H.
    + intros (pre & post & H). destruct pre; [|discriminate].
      exists post. exact H.
  - cbn [includes]. rewrite orb_true_iff, prefix_append, IH. split.
    + intros [[post H]|(pre & post & H)].
      * exists "", post. exact H.
      * exists (String c pre), post. cbn [append]. now rewrite H.
    + intros (pre & post & H). destruct pre as [|c' pre].
      * left. exists post. exact H.
      * right. exists pre, post. cbn [append] in H. congruence.
Qed.

Lemma includes_not_contains (s sub : string) :
  includes s sub = false <-> ~ contains s sub.
Proof.
  rewrite <- includes_contains. destruct (includes s sub); split; intro H;
    try reflexivity; try discriminate; try (intro; discriminate).
  now contradiction H.
Qed.


Lemma matchesRegionWith_iff (lower : string -> string) (key : string) (r : Row) :
  matchesRegionWith lower key r = true <->
  contains (lower (__EMPTY r)) key \/ contains key (lower (__EMPTY r)).
Proof.
  unfold matchesRegionWith. now rewrite orb_true_iff, !includes_contains.
Qed.




(** The lookup on the sample table: a region in another case finds its
    row, an unknown region falls back to the European average, and both
    subsidies enter the capex. *)
Lemma piping_cost_sample :
  findRegionRow (raw_rows sampleData) "GERMANY" = Some (mkRow "Germany" (Numeric 0.3)) /\
  findRegionRow (raw_rows sampleData) "Atlantis"
    = Some (mkRow "European average" (Numeric 0.2)) /\
  findRegionRow (raw_rows noData) "Germany" = None /\
  OfftakeCosts.totalCapex (offtakeCosts sampleData initialState)
    == (200000 * (1 - 0.2) + 12000 * 0.5) * 20 /\
  OfftakeCosts.totalCapex (offtakeCosts noData initialState)
    == (200000 + 10000 * 0.5) * 20.
Proof.
  repeat split; vm_compute; reflexivity.
Qed.

(** A row whose location cell is blank is contained in every region
    name, so it is the match for any region when it comes first. *)
Lemma blank_row_matches_every_region (rows : list Row) (c : Cell) (region : string) :
  findRegionRow (mkRow "" c :: rows) region = Some (mkRow "" c).
Proof.
  unfold findRegionRow. cbn [find].
  assert (M : matchesRegion (toLowerCase region) (mkRow "" c) = true).
  { unfold matchesRegion, rowLoc. cbn [__EMPTY toLowerCase].
    apply orb_true_iff. right.
    destruct (toLowerCase region); reflexivity. }
  now rewrite M.
Qed.

(* ------------------------------------------------------------------ *)
(** ** Ownership comparison *)

(** A tipping fee paid by the third party to the operator cancels in
    the sum of their profits. *)
Lemma tipping_fee_cancels (sv : num) (R O T : Q) :
  num_eq (add (add sv (Fin T)) (Fin (R - O - T)))
         (sub (add sv (Fin R)) (Fin O)).
Proof.
  destruct sv; cbn; try exact I. ring.
Qed.

(** So does a revenue share. *)
Lemma revenue_share_cancels (sv : num) (R O p : Q) :
  num_eq (add (add sv (Fin (R * (p / 100)))) (Fin (R * (1 - p / 100) - O)))
         (sub (add sv (Fin R)) (Fin O)).
Proof.
  destruct sv; cbn; try exact I. field.
Qed.

(** C9.  In every state the operator's annual profit plus the third
    party's profit is, in model B and in model C, the annual profit of
    model A: operational savings plus offtake revenue minus plant opex. *)
Theorem ownership_value_conserved (d : OffData) (s : State) :
  let o := ownershipComparison d s in
  let savings := DcSavings.annualOperationalSavings (dcSavings s) in
  let plantOpex := PlantCosts.opexPerYear (OFFTAKE_PLANT_COSTS (offtake s)) in
  Ownership.annualProfit (Ownership.modelA o)
    = sub (add savings (Fin (offtakeRevenue s))) (Fin plantOpex) /\
  (exists tB,
     Ownership.thirdPartyProfit (Ownership.modelB o) = Some tB /\
     num_eq (add (Ownership.annualProfit (Ownership.modelB o)) (Fin tB))
            (Ownership.annualProfit (Ownership.modelA o))) /\
  (exists tC,
     Ownership.thirdPartyProfit (Ownership.modelC o) = Some tC /\
     num_eq (add (Ownership.annualProfit (Ownership.modelC o)) (Fin tC))
            (Ownership.annualProfit (Ownership.modelA o))).
Proof.
  cbv zeta. unfold ownershipComparison.
  cbn [Ownership.modelA Ownership.modelB Ownership.modelC
       Ownership.annualProfit Ownership.thirdPartyProfit].
  split; [reflexivity|]. split.
  - eexists. split; [reflexivity|]. apply tipping_fee_cancels.
  - eexists. split; [reflexivity|]. apply revenue_share_cancels.
Qed.

Lemma num_eq_refl (a : num) : num_eq a a.
Proof. destruct a; cbn; auto. reflexivity. Qed.

Lemma sub_zero (a : num) : num_eq a (sub a (Fin 0)).
Proof. destruct a; cbn; auto. ring. Qed.

(** A finite dividend over a finite divisor: the quotient when the
    divisor is not zero, a non-finite value when it is. *)
Lemma div_fin (c p : Q) :
  (~ p == 0 -> div (Fin c) (Fin p) = Fin (c / p)) /\
  (p == 0 -> is_finite (div (Fin c) (Fin p)) = false).
Proof.
  unfold div. split; intro H.
  - apply eqb_false in H. now rewrite H.
  - apply eqb_true in H. rewrite H.
    destruct (eqb c 0); [reflexivity|]. destruct (ltb 0 c); reflexivity.
Qed.

Lemma quotient_negative (c p : Q) : 0 < c -> p < 0 -> c / p < 0.
Proof.
  intros Hc Hp.
  assert (E : c / p == - (c / - p)) by (field; lra).
  rewrite E.
  assert (0 < c / - p) by (apply Qlt_shift_div_l; lra).
  lra.
Qed.

(** A tile ends in the unit, so it is never the dash. *)
Lemma paybackTile_not_dash (m : Ownership.Model) : paybackTile m <> dash.
Proof.
  unfold paybackTile, dash.
  destruct (toFixed1 (Ownership.paybackYears m)) as [|c0 [|c1 [|c2 [|c3 r]]]];
    cbn; discriminate.
Qed.

(** Every model divides its capex by its annual profit, with no test
    on the divisor. *)
Lemma payback_is_quotient (d : OffData) (s : State) (m : Ownership.Model) :
  In m (models (ownershipComparison d s)) ->
  Ownership.paybackYears m
  = div (Fin (Ownership.totalCapex m)) (Ownership.annualProfit m).
Proof.
  unfold models. cbn [In].
  intros [<-|[<-|[<-|[]]]]; reflexivity.
Qed.

Lemma profit_is_revenue_minus_opex (d : OffData) (s : State) (m : Ownership.Model) :
  In m (models (ownershipComparison d s)) ->
  num_eq (Ownership.annualProfit m)
         (sub (Ownership.annualRevenue m) (Fin (Ownership.annualOpex m))).
Proof.
  unfold models. cbn [In].
  intros [<-|[<-|[<-|[]]]]; unfold ownershipComparison;
    cbn [Ownership.modelA Ownership.modelB Ownership.modelC
         Ownership.annualProfit Ownership.annualRevenue Ownership.annualOpex].
  - apply num_eq_refl.
  - apply sub_zero.
  - apply sub_zero.
Qed.

(** C1 (defect of the code).  The three ownership cards divide the
    capex by revenue minus opex and print the result followed by "yrs",
    with no test on the divisor, so they never show the dash: the 1 MW
    brewery project has a negative profit in model A and its card reads
    "-3.8 yrs"; with no heat reused and no tipping fee the profit of
    model B is 0, its payback is infinite and its card reads
    "Infinity yrs"; with no IT load the cards of models B and C read
    "NaN yrs".  For a positive profit the payback is the capex divided
    by the profit, and the profit is revenue minus opex.  The savings
    cards of the same page do test their divisor: they show the dash
    whenever the savings per MW are not positive, as in the last two
    of these states. *)
Theorem ownership_payback_unguarded :
  let a := Ownership.modelA (ownershipComparison noData smallBreweryState) in
  let b := Ownership.modelB (ownershipComparison noData noReuseNoFeeState) in
  let z := ownershipComparison noData (withLoad 0 10 initialState) in
  (exists p, Ownership.annualProfit a = Fin p /\ p < 0 /\
     negative_or_infinite (Ownership.paybackYears a) /\
     ~ payback_guarded a /\ paybackTile a = "-3.8 yrs") /\
  (exists p, Ownership.annualProfit b = Fin p /\ p == 0 /\
     Ownership.paybackYears b = PInf /\
     ~ payback_guarded b /\ paybackTile b = "Infinity yrs") /\
  (Ownership.paybackYears (Ownership.modelB z) = NaN /\
   paybackTile (Ownership.modelB z) = "NaN yrs" /\
   paybackTile (Ownership.modelC z) = "NaN yrs") /\
  (forall d s m, In m (models (ownershipComparison d s)) ->
     paybackTile m = toFixed1 (Ownership.paybackYears m) ++ " yrs" /\
     paybackTile m <> dash /\
     Ownership.paybackYears m
       = div (Fin (Ownership.totalCapex m)) (Ownership.annualProfit m) /\
     num_eq (Ownership.annualProfit m)
            (sub (Ownership.annualRevenue m) (Fin (Ownership.annualOpex m))) /\
     forall p, Ownership.annualProfit m = Fin p -> 0 < p ->
       Ownership.paybackYears m = Fin (Ownership.totalCapex m / p)) /\
  (forall s, numGt0 (savingsPerMW s) = false -> savingsPaybackTile s = dash) /\
  savingsPaybackTile noReuseNoFeeState = dash /\
  savingsPaybackTile (withLoad 0 10 initialState) = dash.
Proof.
  cbv zeta. unfold payback_guarded. repeat apply conj.
  - eexists. split; [vm_compute; reflexivity|]. split; [reflexivity|].
    split; [vm_compute; reflexivity|]. split; [|vm_compute; reflexivity].
    intro H. eapply H.
    + vm_compute. reflexivity.
    + vm_compute. discriminate.
    + vm_compute. reflexivity.
  - eexists. split; [vm_compute; reflexivity|]. split; [reflexivity|].
    split; [vm_compute; reflexivity|]. split; [|vm_compute; reflexivity].
    intro H. eapply H.
    + vm_compute. reflexivity.
    + vm_compute. discriminate.
    + vm_compute. exact I.
  - vm_compute. reflexivity.
  - vm_compute. reflexivity.
  - vm_compute. reflexivity.
  - intros d s m Hm.
    pose proof (payback_is_quotient d s m Hm) as Hq.
    split; [reflexivity|]. split; [apply paybackTile_not_dash|].
    split; [exact Hq|].
    split; [now apply (profit_is_revenue_minus_opex d s)|].
    intros p Hp Hpos. rewrite Hq, Hp.
    destruct (div_fin (Ownership.totalCapex m) p) as [Hnz _].
    apply Hnz. lra.
  - intros s H. unfold savingsPaybackTile. now rewrite H.
  - vm_compute. reflexivity.
  - vm_compute. reflexivity.
Qed.

(* ------------------------------------------------------------------ *)
(** ** CO2 tables *)

Lemma orZero_id (x : Q) : orZero x == x.
Proof. unfold orZero. split_cmp; [now symmetry | reflexivity]. Qed.

Lemma all_offtakes_complete (k : Offtake) : In k all_offtakes.
Proof. destruct k; cbn; tauto. Qed.

(** A range scaled by the recoverable heat is one bar of the table
    multiplied by that heat. *)
Lemma scaledRange_of_bar (r : Range) (label : string) (mw lo mid hi : Q) :
  scaledRange r mw = KindRange lo mid hi ->
  let b := mk label r in
  lo == BarDatum.min b * mw /\ hi == BarDatum.max b * mw /\
  mid == BarDatum.best b * mw /\ mid == (lo + hi) / 2.
Proof.
  unfold scaledRange. intros [= <- <- <-]. cbn.
  repeat split; try reflexivity. field.
Qed.

(** A range reported for the selected offtake is the scaled reference
    range of one of the bars. *)
Lemma range_kind_bar (s : State) (lo mid hi : Q) :
  potentialCO2 s = Some (KindRange lo mid hi) ->
  exists r label,
    In (mk label r) co2Bars /\
    scaledRange r (recoverableHeatMW (core s)) = KindRange lo mid hi.
Proof.
  unfold potentialCO2, co2Bars.
  destruct (offtake s); intro H; try discriminate;
    assert (H' := f_equal (fun o => match o with Some v => v | None => KindDac 0 end) H);
    cbv beta iota in H'; eexists _, _; (split; [|exact H']); cbn [In].
  - do 5 right. left. reflexivity.
  - right. left. reflexivity.
  - do 3 right. left. reflexivity.
  - do 4 right. left. reflexivity.
  - do 2 right. left. reflexivity.
Qed.

(** With 5 MW of recoverable heat the scaled forward-osmosis range
    starts at 2.5 kt; no bar of the table does. *)
Lemma co2Bars_scaled_fails :
  ~ co2Bars_scaled noData (withThermalInputs dac 50 10 8760 65 initialState).
Proof.
  unfold co2Bars_scaled. intro H.
  edestruct (H waterTreatmentFO) as [b [Hin [Hmin _]]]; [reflexivity|].
  cbn [Page Derived.co2Bars co2Bars In] in Hin.
  destruct Hin as [<-|[<-|[<-|[<-|[<-|[<-|[]]]]]]];
    vm_compute in Hmin; discriminate.
Qed.

(** C2 (amended).  The comparison table is the same six bars in every
    state and for every region table: the unscaled reference ranges of
    DAC (4 to 5), forward osmosis (0.5 to 1.5), food and beverage (0.3
    to 0.8), atmospheric water (0.1 to 0.3), greenhouses (0.2 to 0.6)
    and district heating (0.1 to 0.5) under their six labels (seven
    offtake kinds exist, hot water has no bar), each with
    [best = (min + max) / 2].  Scaling by the recoverable heat happens
    in [potentialCO2], for the selected offtake only: forward osmosis,
    food and beverage, atmospheric water, greenhouses and district
    heating each give their own reference range times the recoverable
    heat, with the mid value [(min + max) / 2] times that heat; DAC
    gives a single tCO2 figure, the DAC output of the state, and hot
    water gives no value. *)
Theorem co2Bars_constant_table (d d' : OffData) (s s' : State) :
  let bars := Derived.co2Bars (Page d s) in
  let mw := recoverableHeatMW (core s) in
  bars = Derived.co2Bars (Page d' s') /\
  Forall (fun b => BarDatum.best b == (BarDatum.min b + BarDatum.max b) / 2) bars /\
  barRanges bars
    = [DAC_CO2_KT_RANGE; FO_CO2_KT_RANGE; FNB_CO2_KT_RANGE; AWH_CO2_KT_RANGE;
       GREENHOUSE_CO2_KT_PER_MWYR_RANGE; DISTRICT_HEAT_CO2_KT_RANGE] /\
  (length bars = 6%nat /\ length all_offtakes = 7%nat /\
   forall k, In k all_offtakes) /\
  (forall lo mid hi,
     Derived.potentialCO2 (Page d s) = Some (KindRange lo mid hi) ->
     mid == (lo + hi) / 2 /\
     exists b, In b bars /\
       lo == BarDatum.min b * mw /\ hi == BarDatum.max b * mw /\
       mid == BarDatum.best b * mw) /\
  (offtake s = dac ->
     exists t, Derived.potentialCO2 (Page d s) = Some (KindDac t) /\
               t == dacTco2PerYear (outputs s)) /\
  (offtake s = hotWater -> Derived.potentialCO2 (Page d s) = None) /\
  bars
    = [ BarDatum.mk "Direct Air Capture (DAC)" 4.0 5.0 ((4.0 + 5.0) / 2);
        BarDatum.mk "FO Waste Water Treatment" 0.5 1.5 ((0.5 + 1.5) / 2);
        BarDatum.mk "Food & Beverage (EU)" 0.3 0.8 ((0.3 + 0.8) / 2);
        BarDatum.mk "Atmospheric Water Capture" 0.1 0.3 ((0.1 + 0.3) / 2);
        BarDatum.mk "Greenhouses & Agriculture" 0.2 0.6 ((0.2 + 0.6) / 2);
        BarDatum.mk "District Heating (proxy)" 0.1 0.5 ((0.1 + 0.5) / 2) ] /\
  (offtake s = waterTreatmentFO ->
     Derived.potentialCO2 (Page d s)
     = Some (KindRange (0.5 * mw) ((0.5 + 1.5) / 2 * mw) (1.5 * mw))) /\
  (offtake s = foodBrewery ->
     Derived.potentialCO2 (Page d s)
     = Some (KindRange (0.3 * mw) ((0.3 + 0.8) / 2 * mw) (0.8 * mw))) /\
  (offtake s = atmosphericWater ->
     Derived.potentialCO2 (Page d s)
     = Some (KindRange (0.1 * mw) ((0.1 + 0.3) / 2 * mw) (0.3 * mw))) /\
  (offtake s = greenhouses ->
     Derived.potentialCO2 (Page d s)
     = Some (KindRange (0.2 * mw) ((0.2 + 0.6) / 2 * mw) (0.6 * mw))) /\
  (offtake s = districtHeat ->
     Derived.potentialCO2 (Page d s)
     = Some (KindRange (0.1 * mw) ((0.1 + 0.5) / 2 * mw) (0.5 * mw))).
Proof.
  cbv zeta. cbn [Page Derived.co2Bars Derived.potentialCO2].
  split; [reflexivity|]. split.
  { unfold co2Bars. repeat constructor. }
  split; [reflexivity|]. split.
  { split; [reflexivity|]. split; [reflexivity|]. apply all_offtakes_complete. }
  split; [|split; [|split; [|split]]].
  - intros lo mid hi H.
    destruct (range_kind_bar s lo mid hi H) as (r & label & Hin & Hr).
    destruct (scaledRange_of_bar r label _ _ _ _ Hr) as (A & B & C & D).
    split; [exact D|]. exists (mk label r). auto.
  - intro Hk. unfold potentialCO2. rewrite Hk.
    eexists. split; [reflexivity|]. apply orZero_id.
  - intro Hk. unfold potentialCO2. now rewrite Hk.
  - reflexivity.
  - repeat split; intro Hk; unfold potentialCO2; rewrite Hk; reflexivity.
Qed.

(* ================================================================== *)
(** * Further properties of the pipeline *)

(* ------------------------------------------------------------------ *)
(** ** Scale of the thermal core *)

Lemma recoverable_nonneg (s : State) :
  0 <= itLoadMW s -> 0 <= recoverableHeatMW (core s).
Proof.
  intro H. rewrite recoverable_unfold.
  assert (Hc : 0 <= clamp (recoveryPct s) 0 100 <= 100)
    by (apply clamp_range; discriminate).
  set (c := clamp (recoveryPct s) 0 100) in *.
  assert (Hdiv : c / 100 == c * (1 # 100)) by (unfold Qdiv; reflexivity).
  rewrite Hdiv. nra.
Qed.

Lemma recoverable_zero_load (s : State) :
  itLoadMW s == 0 -> recoverableHeatMW (core s) == 0.
Proof.
  intro H. rewrite recoverable_unfold. rewrite H. ring.
Qed.

Lemma annualHeat_unfold (s : State) :
  annualHeatMWh (core s) = recoverableHeatMW (core s) * hoursPerYear s.
Proof. reflexivity. Qed.

Lemma effective_unfold (s : State) :
  effectiveMWyr (core s) = recoverableHeatMW (core s) * (hoursPerYear s / 8760).
Proof. reflexivity. Qed.

(** A guarded quotient with a zero dividend is zero. *)
Lemma guarded_quotient_zero (a b : Q) :
  a == 0 -> (if ltb 0 b then a / b else 0) == 0.
Proof.
  intro H. destruct (ltb 0 b); [|reflexivity].
  rewrite H. unfold Qdiv. ring.
Qed.

(** What the ownership comparison reads at zero load. *)
Lemma zero_load_money (d : OffData) (s : State) :
  itLoadMW s == 0 ->
  annualHeatMWh (core s) == 0 /\
  offtakeRevenue s == 0 /\
  DcSavings.annualOperationalSavings (dcSavings s) = Fin 0 /\
  OfftakeCosts.totalCapex (offtakeCosts d s) == 0 /\
  Ownership.heatExchangerCapex (ownershipComparison d s) == 0 /\
  Ownership.pipingCapex (ownershipComparison d s) == 0.
Proof.
  intro Hload.
  pose proof (recoverable_zero_load s Hload) as Hr.
  assert (Ha : annualHeatMWh (core s) == 0)
    by (rewrite annualHeat_unfold, Hr; ring).
  assert (He : effectiveMWyr (core s) == 0)
    by (rewrite effective_unfold, Hr; ring).
  assert (Hc : OfftakeCosts.totalCapex (offtakeCosts d s) == 0).
  { unfold offtakeCosts. cbn [OfftakeCosts.totalCapex]. rewrite Hr. ring. }
  split; [exact Ha|]. split.
  { unfold offtakeRevenue, outputs.
    cbn [dacTco2PerYear treviM3PerYear uravuM3PerYear].
    destruct (offtake s); rewrite ?He, ?Hr, ?Ha; ring. }
  split.
  { assert (L : ltb 0 (recoverableHeatMW (core s)) = false)
      by (apply ltb_false; lra).
    unfold dcSavings. destruct (lookup (dcConfig s) FACILITIES); [|reflexivity].
    unfold dcSavingsOf. cbn [DcSavings.annualOperationalSavings].
    unfold annualOperationalSavings. now rewrite L. }
  split; [exact Hc|].
  unfold ownershipComparison.
  cbn [Ownership.heatExchangerCapex Ownership.pipingCapex]. split.
  - rewrite Hr. ring.
  - rewrite Hc. reflexivity.
Qed.

(** With no IT load every physical output, the offtake revenue, the
    operational savings and the piping and heat-exchanger costs are 0,
    whatever the other inputs and the region table are. *)
Theorem zero_load_zero_outputs (d : OffData) (s : State)
    (Hload : itLoadMW s == 0) :
  (recoverableHeatMW (core s) == 0 /\ annualHeatMWh (core s) == 0 /\
   effectiveMWyr (core s) == 0) /\
  (treviM3PerYear (outputs s) == 0 /\ uravuM3PerYear (outputs s) == 0 /\
   greenhouseHa (outputs s) == 0 /\ homesHeated (outputs s) == 0 /\
   dacTco2PerYear (outputs s) == 0 /\ dacWaterM3PerYear (outputs s) == 0 /\
   treviPeoplePerYear (outputs s) == 0 /\ uravuPeoplePerYear (outputs s) == 0 /\
   dacPeoplePerYear (outputs s) == 0) /\
  offtakeRevenue s == 0 /\
  DcSavings.annualOperationalSavings (dcSavings s) = Fin 0 /\
  (OfftakeCosts.totalCapex (offtakeCosts d s) == 0 /\
   OfftakeCosts.annualOpex (offtakeCosts d s) == 0) /\
  (Ownership.heatExchangerCapex (ownershipComparison d s) == 0 /\
   Ownership.pipingCapex (ownershipComparison d s) == 0).
Proof.
  pose proof (recoverable_zero_load s Hload) as Hr.
  destruct (zero_load_money d s Hload) as (Ha & Hrev & Hs & Hc & Hhx & Hpipe).
  assert (He : effectiveMWyr (core s) == 0)
    by (rewrite effective_unfold, Hr; ring).
  split; [auto|]. split.
  { unfold outputs.
    cbn [treviM3PerYear uravuM3PerYear greenhouseHa homesHeated dacTco2PerYear
         dacWaterM3PerYear treviPeoplePerYear uravuPeoplePerYear dacPeoplePerYear].
    repeat split.
    - rewrite Hr. ring.
    - rewrite Hr. ring.
    - rewrite Ha. unfold Qdiv. ring.
    - now apply guarded_quotient_zero.
    - rewrite He. ring.
    - rewrite He. ring.
    - apply guarded_quotient_zero. rewrite Hr. ring.
    - apply guarded_quotient_zero. rewrite Hr. ring.
    - apply guarded_quotient_zero. rewrite He. ring. }
  split; [exact Hrev|]. split; [exact Hs|]. split; [|now split].
  split; [exact Hc|].
  unfold offtakeCosts in *.
  cbn [OfftakeCosts.totalCapex OfftakeCosts.annualOpex] in *.
  rewrite Hc. ring.
Qed.

Lemma zero_load_zero_outputs_witness :
  let s := withLoad 0 10 initialState in
  itLoadMW s == 0 /\
  dacTco2PerYear (outputs s) == 0 /\ offtakeRevenue s == 0.
Proof.
  cbv zeta. split; [reflexivity|].
  destruct (zero_load_zero_outputs noData (withLoad 0 10 initialState))
    as (_ & (_ & _ & _ & _ & Hd & _) & Hrev & _).
  - reflexivity.
  - split; assumption.
Defined.

(** The plant cost table has positive entries. *)
Lemma plant_costs_positive (k : Offtake) :
  0 < PlantCosts.capexM (OFFTAKE_PLANT_COSTS k) /\
  0 < PlantCosts.opexPerYear (OFFTAKE_PLANT_COSTS k).
Proof. destruct k; split; reflexivity. Qed.

Lemma div_zero_by_zero (a b : Q) : a == 0 -> b == 0 -> div (Fin a) (Fin b) = NaN.
Proof.
  intros Ha Hb. unfold div.
  apply eqb_true in Ha. apply eqb_true in Hb. now rewrite Hb, Ha.
Qed.

(** With no IT load the payback of models B and C is 0/0, printed as
    "NaN yrs", and the payback of model A is the negative number
    - plant capex / plant opex. *)
Theorem zero_load_paybacks (d : OffData) (s : State)
    (Hload : itLoadMW s == 0) :
  let o := ownershipComparison d s in
  let plant := OFFTAKE_PLANT_COSTS (offtake s) in
  (Ownership.paybackYears (Ownership.modelB o) = NaN /\
   paybackTile (Ownership.modelB o) = "NaN yrs") /\
  (Ownership.paybackYears (Ownership.modelC o) = NaN /\
   paybackTile (Ownership.modelC o) = "NaN yrs") /\
  exists q,
    Ownership.paybackYears (Ownership.modelA o) = Fin q /\
    q == - (PlantCosts.capexM plant * 1000000) / PlantCosts.opexPerYear plant /\
    q < 0.
Proof.
  cbv zeta.
  destruct (zero_load_money d s Hload) as (Ha & Hrev & Hs & Hc & Hhx & Hpipe).
  unfold ownershipComparison in *.
  cbn [Ownership.modelA Ownership.modelB Ownership.modelC
       Ownership.heatExchangerCapex Ownership.pipingCapex] in *.
  unfold paybackTile. cbn [Ownership.paybackYears].
  rewrite Hs. cbn [add sub neg].
  assert (B : div (Fin (recoverableHeatMW (core s) * whrCapitalCostPerMW s * 1000000))
                  (Fin (0 + annualHeatMWh (core s) * tippingFeePerMWh s)) = NaN).
  { apply div_zero_by_zero; [exact Hhx | rewrite Ha; ring]. }
  assert (C : div (Fin (recoverableHeatMW (core s) * whrCapitalCostPerMW s * 1000000))
                  (Fin (0 + offtakeRevenue s * (revenueSharePercent s / 100))) = NaN).
  { apply div_zero_by_zero; [exact Hhx | rewrite Hrev; ring]. }
  rewrite B, C. split; [now split|]. split; [now split|].
  destruct (plant_costs_positive (offtake s)) as [Pc Po].
  set (capM := PlantCosts.capexM (OFFTAKE_PLANT_COSTS (offtake s))) in *.
  set (opex := PlantCosts.opexPerYear (OFFTAKE_PLANT_COSTS (offtake s))) in *.
  set (hx := recoverableHeatMW (core s) * whrCapitalCostPerMW s * 1000000) in *.
  set (pipe := Qabs (OfftakeCosts.totalCapex (offtakeCosts d s))) in *.
  assert (Hden : 0 + offtakeRevenue s + - opex == - opex) by (rewrite Hrev; ring).
  destruct (div_fin (hx + pipe + capM * 1000000) (0 + offtakeRevenue s + - opex))
    as [Hnz _].
  eexists. split; [apply Hnz; lra|].
  assert (E : (hx + pipe + capM * 1000000) / (0 + offtakeRevenue s + - opex)
              == - (capM * 1000000) / opex).
  { rewrite Hden, Hhx, Hpipe. field. lra. }
  split; [exact E|]. rewrite E.
  assert (0 < capM * 1000000 / opex) by (apply Qlt_shift_div_l; lra).
  assert (E2 : - (capM * 1000000) / opex == - (capM * 1000000 / opex))
    by (field; lra).
  lra.
Qed.

Lemma zero_load_paybacks_witness :
  let s := withLoad 0 10 initialState in
  itLoadMW s == 0 /\
  paybackTile (Ownership.modelB (ownershipComparison noData s)) = "NaN yrs".
Proof.
  cbv zeta. split; [reflexivity|].
  destruct (zero_load_paybacks noData (withLoad 0 10 initialState))
    as ((_ & Ht) & _).
  - reflexivity.
  - exact Ht.
Defined.

(* ------------------------------------------------------------------ *)
(** ** Performance factors and the outputs they scale *)

Lemma perf_bounds (s : State) :
  0.75 <= uravuFactor (perf s) <= 1 /\
  0.85 <= treviFactor (perf s) <= 1 /\
  0.5 <= dacFactor (perf s) <= 1 /\
  0.9 <= greenhouseFactor (perf s) <= 1.
Proof.
  unfold perf. cbn [uravuFactor treviFactor dacFactor greenhouseFactor].
  pose proof (ramp_bounded 30 55 0.75 1.0 ltac:(reflexivity) ltac:(discriminate)
                (dcReturnTempC s)) as Bu.
  pose proof (ramp_bounded 30 45 0.85 1.0 ltac:(reflexivity) ltac:(discriminate)
                (dcReturnTempC s)) as Bt.
  pose proof (ramp_bounded 30 DAC_RELEASE_TEMP_C 0.5 1.0
                ltac:(reflexivity) ltac:(discriminate) (dcReturnTempC s)) as Bd.
  pose proof (ramp_bounded 30 60 0.9 1.0 ltac:(reflexivity) ltac:(discriminate)
                (dcReturnTempC s)) as Bg.
  repeat split; lra.
Qed.

Lemma effective_nonneg (s : State) :
  0 <= itLoadMW s -> 0 <= hoursPerYear s -> 0 <= effectiveMWyr (core s).
Proof.
  intros Hl Hh. rewrite effective_unfold.
  pose proof (recoverable_nonneg s Hl) as Hr.
  set (r := recoverableHeatMW (core s)) in *.
  assert (E : hoursPerYear s / 8760 == hoursPerYear s * (1 # 8760))
    by (unfold Qdiv; reflexivity).
  rewrite E. nra.
Qed.

Lemma annualHeat_nonneg (s : State) :
  0 <= itLoadMW s -> 0 <= hoursPerYear s -> 0 <= annualHeatMWh (core s).
Proof.
  intros Hl Hh. rewrite annualHeat_unfold.
  pose proof (recoverable_nonneg s Hl) as Hr.
  set (r := recoverableHeatMW (core s)) in *. nra.
Qed.

(** For a non-negative load and operating time every temperature-scaled
    output lies between its floor share and the full reference yield:
    85 % to 100 % of 310000 m3 per MW for forward osmosis, 75 % to 100 %
    of 8500 m3 per MW for atmospheric water, 50 % to 100 % of 4550 tCO2
    per effective MW-year for DAC, 90 % to 100 % of one hectare per
    4500 MWh for greenhouses. *)
Theorem outputs_within_reference_yield (s : State)
    (Hload : 0 <= itLoadMW s) (Hhours : 0 <= hoursPerYear s) :
  let mw := recoverableHeatMW (core s) in
  let eff := effectiveMWyr (core s) in
  let heat := annualHeatMWh (core s) in
  (0.85 * (mw * 310000) <= treviM3PerYear (outputs s) <= mw * 310000) /\
  (0.75 * (mw * 8500) <= uravuM3PerYear (outputs s) <= mw * 8500) /\
  (0.5 * (eff * 4550) <= dacTco2PerYear (outputs s) <= eff * 4550) /\
  (0.9 * (heat / 4500) <= greenhouseHa (outputs s) <= heat / 4500).
Proof.
  cbv zeta.
  pose proof (recoverable_nonneg s Hload) as Hr.
  pose proof (effective_nonneg s Hload Hhours) as He.
  pose proof (annualHeat_nonneg s Hload Hhours) as Ha.
  destruct (perf_bounds s) as (Bu & Bt & Bd & Bg).
  unfold outputs.
  cbn [treviM3PerYear uravuM3PerYear dacTco2PerYear greenhouseHa].
  set (mw := recoverableHeatMW (core s)) in *.
  set (eff := effectiveMWyr (core s)) in *.
  set (heat := annualHeatMWh (core s)) in *.
  set (fu := uravuFactor (perf s)) in *.
  set (ft := treviFactor (perf s)) in *.
  set (fd := dacFactor (perf s)) in *.
  set (fg := greenhouseFactor (perf s)) in *.
  assert (Et : TREVI_M3_PER_MW_YEAR_MID == 310000) by reflexivity.
  assert (Eu : URAVU_M3_PER_MW_YEAR_MID == 8500) by reflexivity.
  assert (Ed : DAC_TCO2_PER_MW_YEAR == 4550) by reflexivity.
  assert (Eg : heat / GREENHOUSE_MWH_PER_HA_YEAR_DEFAULT == heat * (1 # 4500))
    by (unfold Qdiv; reflexivity).
  assert (Eg' : heat / 4500 == heat * (1 # 4500)) by (unfold Qdiv; reflexivity).
  rewrite Et, Eu, Ed, Eg, Eg'.
  repeat split; nra.
Qed.

Lemma outputs_within_reference_yield_witness :
  (0 <= itLoadMW initialState /\ 0 <= hoursPerYear initialState) /\
  dacTco2PerYear (outputs initialState)
    <= effectiveMWyr (core initialState) * 4550.
Proof.
  split.
  - split; discriminate.
  - destruct (outputs_within_reference_yield initialState)
      as (_ & _ & (_ & H) & _).
    + discriminate.
    + discriminate.
    + exact H.
Defined.

(** A warmer return temperature never lowers an output: the four
    temperature-scaled outputs are non-decreasing in the return
    temperature, and heated homes and DAC water do not depend on it. *)
Theorem outputs_monotone_in_temperature (s : State) (t t' : Q)
    (Hload : 0 <= itLoadMW s) (Hhours : 0 <= hoursPerYear s) (Ht : t <= t') :
  let a := outputs (withReturnTemp t s) in
  let b := outputs (withReturnTemp t' s) in
  treviM3PerYear a <= treviM3PerYear b /\
  uravuM3PerYear a <= uravuM3PerYear b /\
  dacTco2PerYear a <= dacTco2PerYear b /\
  greenhouseHa a <= greenhouseHa b /\
  homesHeated a = homesHeated b /\
  dacWaterM3PerYear a = dacWaterM3PerYear b.
Proof.
  cbv zeta.
  pose proof (recoverable_nonneg s Hload) as Hr.
  pose proof (effective_nonneg s Hload Hhours) as He.
  pose proof (annualHeat_nonneg s Hload Hhours) as Ha.
  unfold outputs, withReturnTemp.
  cbn [treviM3PerYear uravuM3PerYear dacTco2PerYear greenhouseHa
       homesHeated dacWaterM3PerYear].
  change (recoverableHeatMW (core (withThermalInputs (offtake s) (itLoadMW s)
            (recoveryPct s) (hoursPerYear s) t s)))
    with (recoverableHeatMW (core s)).
  change (recoverableHeatMW (core (withThermalInputs (offtake s) (itLoadMW s)
            (recoveryPct s) (hoursPerYear s) t' s)))
    with (recoverableHeatMW (core s)).
  change (effectiveMWyr (core (withThermalInputs (offtake s) (itLoadMW s)
            (recoveryPct s) (hoursPerYear s) t s)))
    with (effectiveMWyr (core s)).
  change (effectiveMWyr (core (withThermalInputs (offtake s) (itLoadMW s)
            (recoveryPct s) (hoursPerYear s) t' s)))
    with (effectiveMWyr (core s)).
  change (annualHeatMWh (core (withThermalInputs (offtake s) (itLoadMW s)
            (recoveryPct s) (hoursPerYear s) t s)))
    with (annualHeatMWh (core s)).
  change (annualHeatMWh (core (withThermalInputs (offtake s) (itLoadMW s)
            (recoveryPct s) (hoursPerYear s) t' s)))
    with (annualHeatMWh (core s)).
  unfold perf. cbn [treviFactor uravuFactor dacFactor greenhouseFactor
                    dcReturnTempC withThermalInputs].
  assert (Mt := ramp_monotone 30 45 0.85 1.0 ltac:(reflexivity) ltac:(discriminate) t t' Ht).
  assert (Mu := ramp_monotone 30 55 0.75 1.0 ltac:(reflexivity) ltac:(discriminate) t t' Ht).
  assert (Md := ramp_monotone 30 DAC_RELEASE_TEMP_C 0.5 1.0
                  ltac:(reflexivity) ltac:(discriminate) t t' Ht).
  assert (Mg := ramp_monotone 30 60 0.9 1.0 ltac:(reflexivity) ltac:(discriminate) t t' Ht).
  set (mw := recoverableHeatMW (core s)) in *.
  set (eff := effectiveMWyr (core s)) in *.
  set (heat := annualHeatMWh (core s)) in *.
  assert (Et : TREVI_M3_PER_MW_YEAR_MID == 310000) by reflexivity.
  assert (Eu : URAVU_M3_PER_MW_YEAR_MID == 8500) by reflexivity.
  assert (Ed : DAC_TCO2_PER_MW_YEAR == 4550) by reflexivity.
  assert (Eg : heat / GREENHOUSE_MWH_PER_HA_YEAR_DEFAULT == heat * (1 # 4500))
    by (unfold Qdiv; reflexivity).
  rewrite Et, Eu, Ed, Eg.
  repeat split; try reflexivity; nra.
Qed.

Lemma outputs_monotone_in_temperature_witness :
  (0 <= itLoadMW initialState /\ 0 <= hoursPerYear initialState /\ 27 <= 50) /\
  dacTco2PerYear (outputs (withReturnTemp 27 initialState))
    <= dacTco2PerYear (outputs (withReturnTemp 50 initialState)).
Proof.
  split.
  - repeat split; discriminate.
  - destruct (outputs_monotone_in_temperature initialState 27 50)
      as (_ & _ & H & _).
    + discriminate.
    + discriminate.
    + discriminate.
    + exact H.
Defined.

(* ------------------------------------------------------------------ *)
(** ** Outputs per MW-year and their scale *)

(** Every output is its per-MW-year figure times the scale of the
    project: the recoverable heat for the two water volumes and the
    people they serve, the effective MW-years for DAC, homes and
    greenhouses.  The per-MW-year figures do not change with the IT
    load, the recovery percentage or the operating hours. *)
Theorem outputs_factor_through_normalized (s : State) :
  let mw := recoverableHeatMW (core s) in
  let eff := effectiveMWyr (core s) in
  let o := outputs s in
  let n := normalized s in
  (treviM3PerYear o == mw * treviM3_per_MWyr n /\
   uravuM3PerYear o == mw * uravuM3_per_MWyr n /\
   treviPeoplePerYear o == mw * phxPeoplePerMWyr_trevi n /\
   uravuPeoplePerYear o == mw * phxPeoplePerMWyr_uravu n) /\
  (dacTco2PerYear o == eff * dacTco2_per_MWyr n /\
   dacWaterM3PerYear o == eff * dacWaterM3_per_MWyr n /\
   dacPeoplePerYear o == eff * phxPeoplePerMWyr_dac n /\
   homesHeated o == eff * homes_per_MWyr n /\
   greenhouseHa o == eff * greenhouseHa_per_MWyr n) /\
  (forall k load pct hours,
      normalized (withThermalInputs k load pct hours (dcReturnTempC s) s)
      = normalized s).
Proof.
  cbv zeta. split; [|split].
  - unfold outputs, normalized.
    cbn [treviM3PerYear uravuM3PerYear treviPeoplePerYear uravuPeoplePerYear
         treviM3_per_MWyr uravuM3_per_MWyr
         phxPeoplePerMWyr_trevi phxPeoplePerMWyr_uravu].
    set (mw := recoverableHeatMW (core s)).
    repeat split; try ring.
    + split_cmp; [field; lra | ring].
    + split_cmp; [field; lra | ring].
  - unfold outputs, normalized.
    cbn [dacTco2PerYear dacWaterM3PerYear dacPeoplePerYear homesHeated
         greenhouseHa dacTco2_per_MWyr dacWaterM3_per_MWyr
         phxPeoplePerMWyr_dac homes_per_MWyr greenhouseHa_per_MWyr].
    rewrite annualHeat_unfold, effective_unfold.
    set (mw := recoverableHeatMW (core s)).
    repeat split; try ring.
    + split_cmp; [field; lra | ring].
    + unfold MWH_PER_MW_YEAR. split_cmp; [field; lra | ring].
    + unfold MWH_PER_MW_YEAR, GREENHOUSE_MWH_PER_HA_YEAR_DEFAULT. field.
  - reflexivity.
Qed.

(** Operating hours scale the annual heat, the effective MW-years and
    the outputs derived from them (DAC, DAC water, homes, greenhouses)
    linearly: at [c] times the hours they are [c] times as large.  The
    two water volumes and the recoverable heat stay as they are. *)
Theorem hours_scale_outputs (s : State) (c : Q) :
  let a := withHours (hoursPerYear s) s in
  let b := withHours (c * hoursPerYear s) s in
  (annualHeatMWh (core b) == c * annualHeatMWh (core a) /\
   effectiveMWyr (core b) == c * effectiveMWyr (core a) /\
   dacTco2PerYear (outputs b) == c * dacTco2PerYear (outputs a) /\
   dacWaterM3PerYear (outputs b) == c * dacWaterM3PerYear (outputs a) /\
   homesHeated (outputs b) == c * homesHeated (outputs a) /\
   greenhouseHa (outputs b) == c * greenhouseHa (outputs a)) /\
  (recoverableHeatMW (core b) = recoverableHeatMW (core a) /\
   treviM3PerYear (outputs b) = treviM3PerYear (outputs a) /\
   uravuM3PerYear (outputs b) = uravuM3PerYear (outputs a)) /\
  outputs a = outputs s.
Proof.
  cbv zeta. split; [|split]; [| repeat split; reflexivity | reflexivity].
  unfold outputs, core, withHours.
  cbn [annualHeatMWh effectiveMWyr dacTco2PerYear dacWaterM3PerYear
       homesHeated greenhouseHa recoverableHeatMW
       itLoadMW recoveryPct hoursPerYear mwhPerHomeYear withThermalInputs].
  unfold perf. cbn [dacFactor greenhouseFactor dcReturnTempC withThermalInputs].
  unfold GREENHOUSE_MWH_PER_HA_YEAR_DEFAULT.
  repeat split; try (field; fail).
  split_cmp; [field; lra | ring].
Qed.

(* ------------------------------------------------------------------ *)
(** ** Operational savings *)

(** A product with a non-finite factor is not finite. *)
Lemma mul_not_finite_l (a b : num) :
  is_finite a = false -> is_finite (mul a b) = false.
Proof.
  destruct a as [x| | |], b as [y| | |]; cbn; intro H;
    try discriminate; try reflexivity;
    unfold scale_inf; destruct (eqb y 0); try reflexivity;
    destruct (ltb 0 y); reflexivity.
Qed.

Lemma mul_not_finite_r (a b : num) :
  is_finite b = false -> is_finite (mul a b) = false.
Proof.
  destruct a as [x| | |], b as [y| | |]; cbn; intro H;
    try discriminate; try reflexivity;
    unfold scale_inf; destruct (eqb x 0); try reflexivity;
    destruct (ltb 0 x); reflexivity.
Qed.

Lemma savings_found (s : State) (f : Facility.t) :
  lookup (dcConfig s) FACILITIES = Some f ->
  DcSavings.annualOperationalSavings (dcSavings s) = annualOperationalSavings s.
Proof. intro H. now rewrite (dcSavings_found s f H). Qed.

(** The savings formula, when there is heat and the COP is not zero. *)
Lemma savings_formula (s : State) (f : Facility.t) :
  lookup (dcConfig s) FACILITIES = Some f ->
  0 < recoverableHeatMW (core s) -> ~ coolingCOP s == 0 ->
  DcSavings.annualOperationalSavings (dcSavings s)
  = Fin (recoverableHeatMW (core s) * (erfPercent s / 100) * hoursPerYear s
         * (1 / coolingCOP s) * electricityCost s).
Proof.
  intros Hf H Hc. rewrite (savings_found s f Hf). unfold annualOperationalSavings.
  apply ltb_true in H. rewrite H.
  destruct (div_fin 1 (coolingCOP s)) as [Hnz _]. rewrite (Hnz Hc).
  reflexivity.
Qed.

(** For a facility of the table the operational savings are 0 without
    recoverable heat; with recoverable heat and a non-zero COP they are
    [recoverableHeatMW * erf * hours * (1 / COP) * electricityCost],
    priced at the electricity cost of the state and not at the one of
    the facility row; with a COP of 0 they are not a finite number. *)
Theorem operational_savings_cases (s : State) (f : Facility.t)
    (Hf : lookup (dcConfig s) FACILITIES = Some f) :
  let mw := recoverableHeatMW (core s) in
  let sv := DcSavings.annualOperationalSavings (dcSavings s) in
  (mw <= 0 -> sv = Fin 0) /\
  (0 < mw -> ~ coolingCOP s == 0 ->
     sv = Fin (mw * (erfPercent s / 100) * hoursPerYear s
               * (1 / coolingCOP s) * electricityCost s)) /\
  (0 < mw -> coolingCOP s == 0 -> is_finite sv = false).
Proof.
  cbv zeta. split; [|split].
  - intro H. rewrite (savings_found s f Hf). unfold annualOperationalSavings.
    apply ltb_false in H. now rewrite H.
  - now apply (savings_formula s f).
  - intros H Hc. rewrite (savings_found s f Hf). unfold annualOperationalSavings.
    apply ltb_true in H. rewrite H.
    destruct (div_fin 1 (coolingCOP s)) as [_ Hz].
    apply mul_not_finite_l, mul_not_finite_r, Hz, Hc.
Qed.

(** The initial state: 20 MW of recoverable heat, a COP of 3.3. *)
Lemma operational_savings_cases_witness :
  exists f,
    lookup (dcConfig initialState) FACILITIES = Some f /\
    0 < recoverableHeatMW (core initialState) /\
    ~ coolingCOP initialState == 0 /\
    DcSavings.annualOperationalSavings (dcSavings initialState)
    = Fin (recoverableHeatMW (core initialState)
           * (erfPercent initialState / 100) * hoursPerYear initialState
           * (1 / coolingCOP initialState) * electricityCost initialState).
Proof.
  eexists. split; [reflexivity|]. split; [reflexivity|]. split; [discriminate|].
  eapply (operational_savings_cases initialState).
  - reflexivity.
  - reflexivity.
  - discriminate.
Defined.

(** A facility name that is neither a key of the table nor one of the
    names every object inherits: every PUE, WUE and ERE figure is
    absent, the operational savings are 0 however much heat is
    recoverable, and the revenue of each ownership model is what the
    offtake, the tipping fee or the revenue share alone bring.  (For an
    inherited name, such as "constructor", the table gives the inherited
    value and the page fails on its [coolingType]; those names are
    excluded.) *)
Theorem unknown_facility (d : OffData) (s : State)
    (Hown : ~ In (dcConfig s) objectPrototypeNames)
    (Hf : lookup (dcConfig s) FACILITIES = None) :
  let r := dcSavings s in
  let o := ownershipComparison d s in
  (DcSavings.pueBaseline r = None /\ DcSavings.pueWithHR r = None /\
   DcSavings.pueReduction r = None /\ DcSavings.wueBaseline r = None /\
   DcSavings.wueWithHR r = None /\ DcSavings.wueReduction r = None /\
   DcSavings.ere r = None /\ DcSavings.configName r = None) /\
  DcSavings.erf r = erfPercent s / 100 /\
  DcSavings.annualOperationalSavings r = Fin 0 /\
  num_eq (savingsPerMW s) (Fin 0) /\
  num_eq (Ownership.annualRevenue (Ownership.modelA o)) (Fin (offtakeRevenue s)) /\
  num_eq (Ownership.annualRevenue (Ownership.modelB o))
         (Fin (annualHeatMWh (core s) * tippingFeePerMWh s)) /\
  num_eq (Ownership.annualRevenue (Ownership.modelC o))
         (Fin (offtakeRevenue s * (revenueSharePercent s / 100))).
Proof.
  cbv zeta. unfold ownershipComparison, savingsPerMW, dcSavings. rewrite Hf.
  cbn [DcSavings.pueBaseline DcSavings.pueWithHR DcSavings.pueReduction
       DcSavings.wueBaseline DcSavings.wueWithHR DcSavings.wueReduction
       DcSavings.ere DcSavings.configName DcSavings.erf
       DcSavings.annualOperationalSavings
       Ownership.modelA Ownership.modelB Ownership.modelC
       Ownership.annualRevenue].
  split; [repeat split|]. split; [reflexivity|]. split; [reflexivity|].
  split.
  { destruct (eqb (recoverableHeatMW (core s)) 0 || leb (recoverableHeatMW (core s)) 0)%bool
      eqn:G; [reflexivity|].
    apply orb_false_iff in G. destruct G as [G _].
    unfold numOrZero, div. cbn [eqb]. rewrite G. cbn. unfold Qdiv. ring. }
  cbn. repeat split; ring.
Qed.

(** A facility name taken from the location column instead of the keys. *)
Lemma unknown_facility_witness :
  let s := withFacility "Quincy, WA" 10 initialState in
  ~ In (dcConfig s) objectPrototypeNames /\
  lookup (dcConfig s) FACILITIES = None /\
  0 < recoverableHeatMW (core s) /\
  DcSavings.annualOperationalSavings (dcSavings s) = Fin 0.
Proof.
  cbv zeta.
  assert (Hown : ~ In (dcConfig (withFacility "Quincy, WA" 10 initialState))
                      objectPrototypeNames).
  { cbn. intuition discriminate. }
  split; [exact Hown|]. split; [reflexivity|]. split; [reflexivity|].
  destruct (unknown_facility noData (withFacility "Quincy, WA" 10 initialState))
    as (_ & _ & H & _).
  - exact Hown.
  - reflexivity.
  - exact H.
Defined.

Lemma numOrZero_fin (q : Q) : num_eq (numOrZero (Fin q)) (Fin q).
Proof.
  unfold numOrZero. split_cmp; cbn; [now symmetry | reflexivity].
Qed.

(** Savings per MW do not depend on the size of the project: with
    recoverable heat, a facility of the table and a non-zero COP they
    are [erf * hours * (1 / COP) * electricityCost]; without recoverable
    heat they are 0. *)
Theorem savingsPerMW_scale_free (s : State) (f : Facility.t)
    (Hf : lookup (dcConfig s) FACILITIES = Some f)
    (Hcop : ~ coolingCOP s == 0) :
  (0 < recoverableHeatMW (core s) ->
     num_eq (savingsPerMW s)
            (Fin ((erfPercent s / 100) * hoursPerYear s
                  * (1 / coolingCOP s) * electricityCost s))) /\
  (recoverableHeatMW (core s) <= 0 -> savingsPerMW s = Fin 0).
Proof.
  unfold savingsPerMW. split; intro H.
  - rewrite (savings_formula s f Hf H Hcop).
    assert (G : (eqb (recoverableHeatMW (core s)) 0
                 || leb (recoverableHeatMW (core s)) 0)%bool = false).
    { apply orb_false_iff. split; [apply eqb_false | apply leb_false]; lra. }
    rewrite G.
    set (mw := recoverableHeatMW (core s)) in *.
    set (q := mw * (erfPercent s / 100) * hoursPerYear s
              * (1 / coolingCOP s) * electricityCost s).
    pose proof (numOrZero_fin q) as Hq.
    destruct (numOrZero (Fin q)) as [x| | |]; cbn in Hq; try contradiction.
    destruct (div_fin x mw) as [Hnz _]. rewrite Hnz by lra.
    unfold num_eq. rewrite Hq. unfold q. field. split; [exact Hcop | lra].
  - assert (G : leb (recoverableHeatMW (core s)) 0 = true) by now apply leb_true.
    now rewrite G, orb_true_r.
Qed.

Lemma savingsPerMW_scale_free_witness :
  exists f,
    lookup (dcConfig initialState) FACILITIES = Some f /\
    ~ coolingCOP initialState == 0 /\
    0 < recoverableHeatMW (core initialState) /\
    num_eq (savingsPerMW initialState)
           (Fin ((erfPercent initialState / 100) * hoursPerYear initialState
                 * (1 / coolingCOP initialState) * electricityCost initialState)).
Proof.
  eexists. split; [reflexivity|]. split; [discriminate|]. split; [reflexivity|].
  eapply (savingsPerMW_scale_free initialState).
  - reflexivity.
  - discriminate.
  - reflexivity.
Defined.

(* ------------------------------------------------------------------ *)
(** ** Temperature adjustment and the PUE and WUE reductions *)

Lemma taf_bounds (s : State) :
  0.85 <= tempAdjustmentFactor s /\
  (25 <= dcReturnTempC s -> tempAdjustmentFactor s <= 1) /\
  (dcReturnTempC s < 25 -> 1 < tempAdjustmentFactor s) /\
  (0 <= dcReturnTempC s -> tempAdjustmentFactor s <= 1.25).
Proof.
  unfold tempAdjustmentFactor.
  assert (E : (dcReturnTempC s - 25) / 100 == (dcReturnTempC s - 25) * (1 # 100))
    by (unfold Qdiv; reflexivity).
  destruct (Qmax_cases 0.85 (1 - (dcReturnTempC s - 25) / 100)) as [[A B]|[A B]];
    rewrite B; rewrite E in *; repeat split; intros; lra.
Qed.

(** The temperature factor is never below 0.85.  It falls linearly from
    1 at 25 degrees to 0.85 at 40 degrees, stays at 0.85 above, and
    exceeds 1 below 25 degrees (up to 1.25 at 0 degrees). *)
Theorem tempAdjustmentFactor_range (s : State) :
  let t := dcReturnTempC s in
  0.85 <= tempAdjustmentFactor s /\
  (t <= 40 -> tempAdjustmentFactor s == 1 - (t - 25) / 100) /\
  (40 <= t -> tempAdjustmentFactor s == 0.85) /\
  (25 <= t -> tempAdjustmentFactor s <= 1) /\
  (t < 25 -> 1 < tempAdjustmentFactor s) /\
  (0 <= t -> tempAdjustmentFactor s <= 1.25).
Proof.
  cbv zeta. unfold tempAdjustmentFactor.
  assert (E : (dcReturnTempC s - 25) / 100 == (dcReturnTempC s - 25) * (1 # 100))
    by (unfold Qdiv; reflexivity).
  destruct (Qmax_cases 0.85 (1 - (dcReturnTempC s - 25) / 100)) as [[A B]|[A B]];
    rewrite B; rewrite E in *; repeat split; intros; lra.
Qed.

Lemma pueReduction_of (s : State) (f : Facility.t) :
  lookup (dcConfig s) FACILITIES = Some f ->
  ~ Facility.pueBaseline f == 0 ->
  exists p, DcSavings.pueReduction (dcSavings s) = Some p /\
            p == 100 * Facility.pueMaxImprovement f * (erfPercent s / 100)
                 * tempAdjustmentFactor s.
Proof.
  intros Hf H. rewrite (dcSavings_found s f Hf). unfold dcSavingsOf.
  cbn [DcSavings.pueReduction].
  apply eqb_false in H. rewrite H. apply eqb_false in H.
  eexists. split; [reflexivity|].
  split_cmp.
  - rewrite E. field. exact H.
  - field. exact H.
Qed.

(** The percentages reported for a facility of the table: the PUE
    reduction is [100 * pueMaxImprovement * erf * factor] (absent for a
    zero baseline) and the WUE reduction of a water-cooled facility is
    [15 * erf * factor]; neither depends on the baseline. *)
Theorem reduction_percentages (s : State) (f : Facility.t)
    (Hf : lookup (dcConfig s) FACILITIES = Some f) :
  let erf := erfPercent s / 100 in
  let r := dcSavings s in
  (~ Facility.pueBaseline f == 0 ->
     exists p, DcSavings.pueReduction r = Some p /\
               p == 100 * Facility.pueMaxImprovement f * erf
                    * tempAdjustmentFactor s) /\
  (Facility.pueBaseline f == 0 -> DcSavings.pueReduction r = None) /\
  (0 < Facility.wueBaseline f ->
     exists w, DcSavings.wueReduction r = Some w /\
               w == 15 * erf * tempAdjustmentFactor s).
Proof.
  cbv zeta. split; [now apply (pueReduction_of s f)|].
  rewrite (dcSavings_found s f Hf). unfold dcSavingsOf.
  cbn [DcSavings.pueReduction DcSavings.wueReduction]. split.
  - intro H. apply eqb_true in H. now rewrite H.
  - intro H.
    assert (H1 : eqb (Facility.wueBaseline f) 0 = false) by (apply eqb_false; lra).
    assert (H2 : ltb 0 (Facility.wueBaseline f) = true) by now apply ltb_true.
    rewrite H1, H2. cbn [negb andb].
    eexists. split; [reflexivity|].
    split_cmp.
    + rewrite E. field. lra.
    + field. lra.
Qed.

(** Osgood, a water-cooled facility, at an ERF of 40 %. *)
Lemma reduction_percentages_witness :
  let s := withFacility "Osgood" 40 initialState in
  exists f,
    lookup (dcConfig s) FACILITIES = Some f /\
    0 < Facility.wueBaseline f /\
    exists w, DcSavings.wueReduction (dcSavings s) = Some w /\
              w == 15 * (erfPercent s / 100) * tempAdjustmentFactor s.
Proof.
  cbv zeta. eexists. split; [reflexivity|]. split; [reflexivity|].
  eapply (reduction_percentages (withFacility "Osgood" 40 initialState)).
  - reflexivity.
  - reflexivity.
Defined.

(** With an ERF between 0 and 100 %, a return temperature of at least
    25 degrees and a facility row with a positive baseline and a
    non-negative improvement ceiling, heat reuse never raises the PUE
    and the reported reduction stays within the ceiling of the row.
    Below 25 degrees the ceiling can be exceeded. *)
Theorem pue_reduction_within_ceiling (s : State) (f : Facility.t)
    (Hf : lookup (dcConfig s) FACILITIES = Some f)
    (Herf : 0 <= erfPercent s <= 100)
    (Hpb : 0 < Facility.pueBaseline f)
    (Hmax : 0 <= Facility.pueMaxImprovement f) :
  (25 <= dcReturnTempC s ->
     exists w p,
       DcSavings.pueWithHR (dcSavings s) = Some w /\
       DcSavings.pueReduction (dcSavings s) = Some p /\
       w <= Facility.pueBaseline f /\
       0 <= p <= 100 * Facility.pueMaxImprovement f) /\
  (dcReturnTempC s < 25 -> erfPercent s == 100 ->
     0 < Facility.pueMaxImprovement f ->
     exists p,
       DcSavings.pueReduction (dcSavings s) = Some p /\
       100 * Facility.pueMaxImprovement f < p).
Proof.
  destruct (pueWithHR_of f s) as (w & Hw & Ew).
  rewrite <- (dcSavings_found s f Hf) in Hw.
  destruct (pueReduction_of s f Hf) as (p & Hp & Ep); [lra|].
  destruct (taf_bounds s) as (T0 & T1 & T2 & _).
  assert (Ee : erfPercent s / 100 == erfPercent s * (1 # 100))
    by (unfold Qdiv; reflexivity).
  rewrite Ee in *.
  set (e := erfPercent s) in *.
  set (taf := tempAdjustmentFactor s) in *.
  set (m := Facility.pueMaxImprovement f) in *.
  set (pb := Facility.pueBaseline f) in *.
  assert (Hx : 0 <= e * (1 # 100) <= 1) by lra.
  set (x := e * (1 # 100)) in *.
  split.
  - intro Ht. specialize (T1 Ht). exists w, p.
    split; [exact Hw|]. split; [exact Hp|].
    assert (Hy : 0 <= x * taf <= 1) by nra.
    assert (Ey : m * x * taf == m * (x * taf)) by ring.
    assert (Ep' : p == 100 * (m * (x * taf))) by (rewrite Ep; ring).
    assert (Ew' : w == pb - pb * (m * (x * taf))) by (rewrite Ew; ring).
    set (y := x * taf) in *.
    assert (Hz : 0 <= m * y <= m) by nra.
    set (z := m * y) in *.
    split; [|split]; nra.
  - intros Ht He Hm. specialize (T2 Ht). exists p. split; [exact Hp|].
    assert (Hx1 : x == 1) by (unfold x; rewrite He; reflexivity).
    rewrite Ep. rewrite Hx1. nra.
Qed.

Lemma pue_reduction_within_ceiling_witness :
  exists f,
    lookup (dcConfig initialState) FACILITIES = Some f /\
    (0 <= erfPercent initialState <= 100) /\
    0 < Facility.pueBaseline f /\ 0 <= Facility.pueMaxImprovement f /\
    25 <= dcReturnTempC initialState /\
    exists w p,
      DcSavings.pueWithHR (dcSavings initialState) = Some w /\
      DcSavings.pueReduction (dcSavings initialState) = Some p /\
      w <= Facility.pueBaseline f /\
      0 <= p <= 100 * Facility.pueMaxImprovement f.
Proof.
  eexists. split; [reflexivity|]. split; [split; discriminate|].
  split; [reflexivity|]. split; [discriminate|]. split; [discriminate|].
  eapply (pue_reduction_within_ceiling initialState).
  - reflexivity.
  - split; discriminate.
  - reflexivity.
  - discriminate.
  - discriminate.
Defined.

(* ------------------------------------------------------------------ *)
(** ** The two region lookups and the list of locations *)

Lemma find_agree {A : Type} (p q : A -> bool) (l : list A) :
  (forall x, In x l -> p x = q x) -> find p l = find q l.
Proof.
  induction l as [|a l IH]; intro H; [reflexivity|].
  cbn [find]. rewrite (H a (or_introl eq_refl)).
  destruct (q a); [reflexivity|].
  apply IH. intros x Hx. apply H. now right.
Qed.

(** The cost lookup and the lookup of the information card return the
    same row whenever no row's location is contained in the region name
    without containing it.  The row found by the card contains the
    region name or names the European average. *)
Theorem region_lookups_agree (rows : list Row) (region : string)
    (H : forall r, In r rows ->
           includes (toLowerCase region) (rowLoc r) = true ->
           includes (rowLoc r) (toLowerCase region) = true) :
  findRegionRow rows region = findRegionRowInfo rows region /\
  (forall r, findRegionRowInfo rows region = Some r ->
     In r rows /\
     (includes (rowLoc r) (toLowerCase region) = true \/
      isEuropeanAverage r = true)).
Proof.
  split.
  - unfold findRegionRow, findRegionRowInfo.
    rewrite (find_agree (matchesRegion (toLowerCase region))
                        (matchesRegionInfo (toLowerCase region)) rows).
    + reflexivity.
    + intros r Hr. unfold matchesRegion, matchesRegionInfo.
      destruct (includes (rowLoc r) (toLowerCase region)) eqn:A; [reflexivity|].
      destruct (includes (toLowerCase region) (rowLoc r)) eqn:B; [|reflexivity].
      rewrite (H r Hr B) in A. discriminate.
  - intros r. unfold findRegionRowInfo.
    destruct (find (matchesRegionInfo (toLowerCase region)) rows) as [r1|] eqn:F.
    + intros [= <-]. apply find_some in F. destruct F as [Hin Hm]. auto.
    + intro G. apply find_some in G. destruct G as [Hin Hm]. auto.
Qed.

(** The sample table and the region "GERMANY". *)
Lemma region_lookups_agree_witness :
  (forall r, In r (raw_rows sampleData) ->
     includes (toLowerCase "GERMANY") (rowLoc r) = true ->
     includes (rowLoc r) (toLowerCase "GERMANY") = true) /\
  findRegionRow (raw_rows sampleData) "GERMANY"
  = findRegionRowInfo (raw_rows sampleData) "GERMANY".
Proof.
  assert (Hyp : forall r, In r (raw_rows sampleData) ->
     includes (toLowerCase "GERMANY") (rowLoc r) = true ->
     includes (rowLoc r) (toLowerCase "GERMANY") = true).
  { intros r Hr. cbn in Hr.
    destruct Hr as [<-|[<-|[<-|[<-|[]]]]]; vm_compute; intro E;
      first [reflexivity | discriminate E]. }
  split; [exact Hyp|].
  apply (region_lookups_agree (raw_rows sampleData) "GERMANY" Hyp).
Defined.

(** A region name that extends a row's location: the cost lookup takes
    the row, the information card falls back to the European average. *)
Lemma region_lookups_differ :
  findRegionRow (raw_rows sampleData) "Germany (North)"
    = Some (mkRow "Germany" (Numeric 0.3)) /\
  findRegionRowInfo (raw_rows sampleData) "Germany (North)"
    = Some (mkRow "European average" (Numeric 0.2)).
Proof. split; vm_compute; reflexivity. Qed.

Lemma existsb_eqb_In (x : string) (l : list string) :
  existsb (String.eqb x) l = true <-> In x l.
Proof.
  rewrite existsb_exists. split.
  - intros (y & Hy & E). apply String.eqb_eq in E. now subst.
  - intro H. exists x. split; [assumption | apply String.eqb_refl].
Qed.

Lemma existsb_false {A : Type} (p : A -> bool) (l : list A) :
  existsb p l = false <-> forall x, In x l -> p x = false.
Proof.
  induction l as [|a l IH]; cbn [existsb In].
  - split; [intros _ x [] | reflexivity].
  - rewrite orb_false_iff, IH. split.
    + intros [Ha Hl] x [<-|Hx]; [exact Ha | now apply Hl].
    + intro H. split; [apply H; now left | intros x Hx; apply H; now right].
Qed.

(** The test of the loop, in words: not empty, at least three
    characters, no keyword inside the lower-cased text. *)
Lemma keepLocationWith_iff (lower : string -> string) (lenF : string -> nat)
    (loc : string) :
  keepLocationWith lower lenF loc = true <->
  loc <> "" /\ (3 <= lenF loc)%nat /\
  forall k, In k skipKeywords -> ~ contains (lower loc) k.
Proof.
  unfold keepLocationWith.
  rewrite andb_true_iff, !negb_true_iff, orb_false_iff, existsb_false.
  rewrite String.eqb_neq, Nat.ltb_ge. split.
  - intros [[H1 H2] H3]. repeat split; try assumption.
    intros k Hk. apply includes_not_contains. now apply H3.
  - intros (H1 & H2 & H3). repeat split; try assumption.
    intros k Hk. apply includes_not_contains. now apply H3.
Qed.

Lemma locationsFromWith_spec (lower trimF : string -> string) (lenF : string -> nat)
    (rows : list Row) :
  forall seen out,
    (forall x, In x seen <-> In x out) -> NoDup out ->
    NoDup (locationsFromWith lower trimF lenF rows seen out) /\
    forall loc,
      In loc (locationsFromWith lower trimF lenF rows seen out) <->
      In loc out \/
      exists r, In r rows /\ loc = trimF (__EMPTY r) /\ keepLocationWith lower lenF loc = true.
Proof.
  induction rows as [|r rows IH]; intros seen out Hs Hn.
  - cbn. split; [assumption|]. intro loc. split; [auto|].
    intros [H|(r & [] & _)]. assumption.
  - cbn [locationsFromWith].
    destruct (keepLocationWith lower lenF (trimF (__EMPTY r))) eqn:K.
    + destruct (existsb (String.eqb (trimF (__EMPTY r))) seen) eqn:E.
      * apply existsb_eqb_In in E. apply Hs in E.
        destruct (IH seen out Hs Hn) as [N I]. split; [assumption|].
        intro loc. rewrite I. split.
        -- intros [H|(r' & Hr' & Hl & Hk)]; [now left|].
           right. exists r'. split; [now right | now split].
        -- intros [H|(r' & [<-|Hr'] & Hl & Hk)]; [now left | |].
           ++ left. now subst loc.
           ++ right. exists r'. now repeat split.
      * assert (Hnot : ~ In (trimF (__EMPTY r)) out).
        { intro Hin. apply Hs in Hin. apply existsb_eqb_In in Hin. congruence. }
        destruct (IH (trimF (__EMPTY r) :: seen) (out ++ [trimF (__EMPTY r)])%list)
          as [N I].
        -- intro x. cbn [In]. rewrite in_app_iff, Hs. cbn [In]. tauto.
        -- apply NoDup_app.
           ++ assumption.
           ++ constructor; [intros []|constructor].
           ++ intros x Hx [<-|[]]. now apply Hnot.
        -- split; [assumption|]. intro loc. rewrite I, in_app_iff. cbn [In].
           split.
           ++ intros [[H|[<-|[]]]|(r' & Hr' & Hl & Hk)].
              ** now left.
              ** right. exists r. split; [now left | now split].
              ** right. exists r'. split; [now right | now split].
           ++ intros [H|(r' & [<-|Hr'] & Hl & Hk)].
              ** left. now left.
              ** left. right. left. now symmetry.
              ** right. exists r'. now repeat split.
    + destruct (IH seen out Hs Hn) as [N I]. split; [assumption|].
      intro loc. rewrite I. split.
      * intros [H|(r' & Hr' & Hl & Hk)]; [now left|].
        right. exists r'. split; [now right | now split].
      * intros [H|(r' & [<-|Hr'] & Hl & Hk)]; [now left | |].
        -- subst loc. congruence.
        -- right. exists r'. now repeat split.
Qed.

(** The list of locations offered for the region selector, for any
    string methods in the place of [toLowerCase], [trim] and [length]:
    it has no duplicates, and a text is in it exactly when it is the
    trimmed location cell of some row of the table, is not empty, has at
    least three characters and, in lower case, contains none of the
    fourteen keywords.  The list of the page is the instance at the
    ASCII string methods. *)
Theorem locations_distinct_and_filtered
    (lower trimF : string -> string) (lenF : string -> nat) (d : OffData) :
  let out := locationsWith lower trimF lenF d in
  NoDup out /\
  (forall loc,
     In loc out <->
     exists r, In r (raw_rows d) /\ loc = trimF (__EMPTY r) /\
               loc <> "" /\ (3 <= lenF loc)%nat /\
               forall k,
                 In k [ "introduction"; "this"; "large"; "hence"; "should";
                        "note"; "in other"; "also"; "for the"; "on the";
                        "the third"; "petter"; "so,"; "location" ] ->
                 ~ contains (lower loc) k) /\
  locationsWith toLowerCase trim String.length d = locations d.
Proof.
  cbv zeta. unfold locationsWith.
  destruct (locationsFromWith_spec lower trimF lenF (raw_rows d) [] []) as [N I];
    [intro; tauto | constructor |].
  split; [exact N|]. split; [|reflexivity].
  intro loc. rewrite I. cbn [In]. split.
  - intros [[]|(r & Hr & Hl & K)]. exists r.
    apply keepLocationWith_iff in K. tauto.
  - intros (r & Hr & Hl & K). right. exists r.
    split; [exact Hr|]. split; [exact Hl|].
    apply keepLocationWith_iff. exact K.
Qed.

(** The header row and a repeated, padded row on a sample table. *)
Lemma locations_sample :
  locations (mkOffData
               [ mkRow "Location" NotNumeric; mkRow "  Germany " (Numeric 0.3);
                 mkRow "Germany" Falsy; mkRow "UK" Falsy;
                 mkRow "Note: prices in EUR" Falsy;
                 mkRow "European average" (Numeric 0.2) ] None)
  = ["Germany"; "European average"].
Proof. vm_compute. reflexivity. Qed.

(* ------------------------------------------------------------------ *)
(** ** The bar chart stays inside its plot area *)








(* ------------------------------------------------------------------ *)
(** ** Input handlers *)

(** Whatever number the return-temperature slider delivers, the stored
    temperature lies between 0 and 79 degrees (and is the number itself
    when that is in range).  So the food-and-brewery card always reads
    "Many steps need lift", never "More direct use"; the supply
    temperature is at most 67 degrees and the temperature factor at most
    1.25.  The heat figures of the thermal core do not change. *)
Theorem return_temp_slider_clamped (n : Q) (s : State) :
  let s' := onReturnTempSlider n s in
  0 <= dcReturnTempC s' <= 79 /\
  (0 <= n <= 79 -> dcReturnTempC s' == n) /\
  processSuitability s' = "Many steps need lift" /\
  dcSupplyTempC s' <= 67 /\
  tempAdjustmentFactor s' <= 1.25 /\
  (recoverableHeatMW (core s') = recoverableHeatMW (core s) /\
   annualHeatMWh (core s') = annualHeatMWh (core s) /\
   effectiveMWyr (core s') = effectiveMWyr (core s)).
Proof.
  cbv zeta.
  assert (R : 0 <= dcReturnTempC (onReturnTempSlider n s) <= 79 /\
              (0 <= n <= 79 -> dcReturnTempC (onReturnTempSlider n s) == n)).
  { unfold onReturnTempSlider, withReturnTemp. cbn [dcReturnTempC withThermalInputs].
    destruct (Qmin_cases n 79) as [[A B]|[A B]];
      destruct (Qmax_cases 0 (Qmin n 79)) as [[C D]|[C D]];
      split; try intro; lra. }
  destruct R as [R1 R2].
  split; [exact R1|]. split; [exact R2|]. split.
  { unfold processSuitability.
    assert (L : ltb (dcReturnTempC (onReturnTempSlider n s)) 80 = true)
      by (apply ltb_true; lra).
    now rewrite L. }
  split.
  { unfold dcSupplyTempC. lra. }
  split.
  { destruct (taf_bounds (onReturnTempSlider n s)) as (_ & _ & _ & T).
    apply T. lra. }
  repeat split; reflexivity.
Qed.

(** The electricity cost is set by whichever of the two selectors was
    used last: after a facility and then a location are chosen, the
    operational savings are priced at the location's cost although the
    facility stays selected; in the other order they are priced at the
    facility's cost.  The facility selector leaves the location and the
    grid factor alone. *)
Theorem electricity_cost_last_selection (u : Ui) (name city : string)
    (f : Facility.t) (loc : Location.t)
    (Hf : lookup name FACILITIES = Some f)
    (Hl : lookup city DC_LOCATIONS = Some loc) :
  let a := onCityChange city (onFacilityChange name u) in
  let b := onFacilityChange name (onCityChange city u) in
  let energy s :=
    recoverableHeatMW (core s) * (erfPercent s / 100) * hoursPerYear s
    * (1 / coolingCOP s) in
  (dcConfig (page a) = name /\ dcConfig (page b) = name /\
   dcCity a = city /\ dcCity b = city /\
   gridEfKgPerKwh a = Location.gridEfKgPerKwh loc /\
   gridEfKgPerKwh b = Location.gridEfKgPerKwh loc) /\
  (electricityCost (page a) = Location.electricityCostPerMWh loc /\
   electricityCost (page b) = Facility.electricityCostPerMWh f) /\
  (0 < recoverableHeatMW (core (page u)) -> ~ coolingCOP (page u) == 0 ->
   DcSavings.annualOperationalSavings (dcSavings (page a))
     = Fin (energy (page u) * Location.electricityCostPerMWh loc) /\
   DcSavings.annualOperationalSavings (dcSavings (page b))
     = Fin (energy (page u) * Facility.electricityCostPerMWh f)).
Proof.
  cbv zeta. unfold onCityChange, onFacilityChange.
  cbn [page dcCity gridEfKgPerKwh]. rewrite Hf, Hl.
  cbn [page dcCity gridEfKgPerKwh dcConfig electricityCost withSelection].
  rewrite ?Hf.
  split; [repeat split|]. split; [split; reflexivity|].
  intros Hr Hc. split.
  - set (sa := withSelection name (Location.electricityCostPerMWh loc)
                 (withSelection name (Facility.electricityCostPerMWh f) (page u))).
    apply (savings_formula sa f Hf Hr Hc).
  - set (sb := withSelection name (Facility.electricityCostPerMWh f)
                 (withSelection (dcConfig (page u))
                    (Location.electricityCostPerMWh loc) (page u))).
    apply (savings_formula sb f Hf Hr Hc).
Qed.

(** Osgood chosen before and after Phoenix, from the initial page. *)
Lemma electricity_cost_last_selection_witness :
  exists f loc,
    lookup "Osgood" FACILITIES = Some f /\
    lookup "Phoenix" DC_LOCATIONS = Some loc /\
    electricityCost (page (onCityChange "Phoenix" (onFacilityChange "Osgood" initialUi)))
      = Location.electricityCostPerMWh loc /\
    electricityCost (page (onFacilityChange "Osgood" (onCityChange "Phoenix" initialUi)))
      = Facility.electricityCostPerMWh f.
Proof.
  eexists. eexists. split; [reflexivity|]. split; [reflexivity|].
  eapply (electricity_cost_last_selection initialUi "Osgood" "Phoenix").
  - reflexivity.
  - reflexivity.
Defined.

(* ------------------------------------------------------------------ *)
(** ** Formatted numbers and the dash *)

(** A decimal numeral starts with a digit. *)
Lemma decimal_head (n : N) :
  exists c rest, decimal n = String c rest /\ c <> "226"%char.
Proof.
  unfold decimal, NilZero.string_of_uint.
  destruct (N.to_uint n); cbn; eexists; eexists; (split; [reflexivity|]);
    discriminate.
Qed.

Lemma fixedDigits_head (d : nat) (x : Q) :
  exists c rest, fixedDigits d x = String c rest /\ c <> "226"%char.
Proof.
  unfold fixedDigits. destruct d as [|d].
  - apply decimal_head.
  - match goal with
    | |- context [decimal (?a / ?b)] =>
        destruct (decimal_head (a / b)) as (c & rest & E & Hc)
    end.
    rewrite E. cbn [append]. eauto.
Qed.

Lemma toFixed_head (d : nat) (n : num) :
  n <> NaN ->
  exists c rest, toFixed d n = String c rest /\ c <> "226"%char.
Proof.
  intro H. destruct n as [q| | |]; cbn [toFixed].
  - destruct (ltb q 0).
    + cbn [append]. eexists. eexists. split; [reflexivity | discriminate].
    + apply fixedDigits_head.
  - eexists. eexists. split; [reflexivity | discriminate].
  - eexists. eexists. split; [reflexivity | discriminate].
  - contradiction.
Qed.

Lemma toFixed_not_dash (d : nat) (n : num) (suffix : string) :
  n <> NaN -> toFixed d n ++ suffix <> dash.
Proof.
  intro H. destruct (toFixed_head d n H) as (c & rest & E & Hc).
  rewrite E. cbn [append]. unfold dash. intros [= Hd _]. contradiction.
Qed.

(** Equal rationals print alike. *)
Lemma toFixed_Qeq (d : nat) (a b : Q) :
  a == b -> toFixed d (Fin a) = toFixed d (Fin b).
Proof.
  intro H. cbn [toFixed].
  assert (L : ltb a 0 = ltb b 0).
  { unfold ltb. f_equal. apply Qleb_comp; [reflexivity | exact H]. }
  assert (F : forall x y, x == y -> fixedDigits d x = fixedDigits d y).
  { intros x y Hxy. unfold fixedDigits.
    assert (G : Qfloor (x * inject_Z (Z.of_N (10 ^ N.of_nat d)) + (1 # 2))
                = Qfloor (y * inject_Z (Z.of_N (10 ^ N.of_nat d)) + (1 # 2)))
      by (apply Qfloor_comp; rewrite Hxy; reflexivity).
    now rewrite G. }
  rewrite L. destruct (ltb b 0).
  - f_equal. apply F. now rewrite H.
  - now apply F.
Qed.

(** One decimal: the general method agrees with the payback tiles. *)
Lemma toFixed_one (n : num) : toFixed 1 n = toFixed1 n.
Proof.
  assert (F : forall x, fixedDigits 1 x = fixed1 x).
  { intro x. unfold fixedDigits, fixed1.
    change (inject_Z (Z.of_N (10 ^ N.of_nat 1))) with 10.
    change (10 ^ N.of_nat 1)%N with 10%N.
    set (k := Z.to_N (Qfloor (x * 10 + (1 # 2)))).
    destruct (decimal_head (k mod 10)) as (c & rest & E & _).
    unfold padStart. rewrite E. reflexivity. }
  destruct n as [q| | |]; cbn [toFixed toFixed1]; try reflexivity.
  now rewrite !F.
Qed.

(** The reporting table prints the dash for an absent value and for NaN
    and for nothing else; a tile that tests the value itself prints the
    dash for 0 as well. *)
Theorem fmtOrDash_dash_iff (value : option num) (qvalue : option Q) (d : nat) :
  (fmtOrDash value d = dash <-> value = None \/ value = Some NaN) /\
  (tileOrDash qvalue d = dash <->
   qvalue = None \/ exists q, qvalue = Some q /\ q == 0) /\
  (tileOrDash qvalue d <> dash -> tileOrDash qvalue d = fmtOrDash (ofQ qvalue) d).
Proof.
  split; [|split].
  - split.
    + destruct value as [[q| | |]|]; cbn [fmtOrDash]; auto; intro H; exfalso;
        match type of H with
        | toFixed d ?n = dash =>
            apply (toFixed_not_dash d n ""); [discriminate|];
            rewrite <- H;
            clear H; generalize (toFixed d n); intro z;
            induction z as [|c z IH]; cbn; [reflexivity | now rewrite IH]
        end.
    + intros [->| ->]; reflexivity.
  - split.
    + destruct qvalue as [q|]; cbn [tileOrDash]; [|auto].
      destruct (eqb q 0) eqn:E.
      * intros _. right. exists q. split; [reflexivity | now apply eqb_true].
      * intro H. exfalso. apply (toFixed_not_dash d (Fin q) ""); [discriminate|].
        rewrite <- H. generalize (toFixed d (Fin q)). intro z.
        induction z as [|c z IH]; cbn; [reflexivity | now rewrite IH].
    + intros [->|(q & -> & Hq)]; cbn [tileOrDash]; [reflexivity|].
      apply eqb_true in Hq. now rewrite Hq.
  - destruct qvalue as [q|]; cbn [tileOrDash ofQ fmtOrDash].
    + destruct (eqb q 0); [intro H; now contradiction H | reflexivity].
    + intro H. now contradiction H.
Qed.

(** For a dry-cooled facility of the table the "With HR" tile of the
    WUE card shows the dash, because the value 0 is falsy, while the
    reporting table prints the same value as "0.000"; the WUE reduction
    is a dash in both places. *)
Theorem dry_cooled_wue_display (s : State) (f : Facility.t)
    (Hf : lookup (dcConfig s) FACILITIES = Some f)
    (Hdry : Facility.wueBaseline f == 0) :
  let r := dcSavings s in
  tileOrDash (DcSavings.wueWithHR r) 3 = dash /\
  fmtOrDash (ofQ (DcSavings.wueWithHR r)) 3 = "0.000" /\
  tileOrDash (DcSavings.wueReduction r) 1 = dash /\
  fmtOrDash (ofQ (DcSavings.wueReduction r)) 1 = dash.
Proof.
  cbv zeta. rewrite (dcSavings_found s f Hf).
  destruct (wue_dry_cooled_of f s Hdry) as [Hw Hr]. rewrite Hw, Hr.
  repeat split; vm_compute; reflexivity.
Qed.

Lemma dry_cooled_wue_display_witness :
  let s := withFacility "Fremont/Fairwater" 40 initialState in
  exists f,
    lookup (dcConfig s) FACILITIES = Some f /\
    Facility.wueBaseline f == 0 /\
    tileOrDash (DcSavings.wueWithHR (dcSavings s)) 3 = dash /\
    fmtOrDash (ofQ (DcSavings.wueWithHR (dcSavings s))) 3 = "0.000".
Proof.
  cbv zeta. eexists. split; [reflexivity|]. split; [reflexivity|].
  destruct (dry_cooled_wue_display
              (withFacility "Fremont/Fairwater" 40 initialState)
              (Facility.mk "Northern CA" "Air-cooled chillers, closed-loop FW"
                           15 115 1.72 0.04 0 0 "air cooled" "High"))
    as (A & B & _).
  - reflexivity.
  - reflexivity.
  - split; assumption.
Defined.

(* ------------------------------------------------------------------ *)
(** ** The playground page *)

Lemma V2_savingsPositive_iff (s : V2.State) :
  V2.savingsPositive s = true <-> 0 < V2.annualOperationalSavings s.
Proof.
  unfold V2.savingsPositive. rewrite andb_true_iff, negb_true_iff.
  split.
  - intros [_ H]. now apply ltb_true.
  - intro H. split; [apply eqb_false; lra | now apply ltb_true].
Qed.

(** The playground shows the dash instead of a payback whenever the
    annual savings are not positive, and otherwise the quotient
    [capital cost * 1000000 / savings] with one decimal; the "1 MW" card
    and the "Your Case" card always show the same payback.  With
    non-negative slider values the dash appears exactly when the IT load
    or the operating hours are 0. *)
Theorem playground_payback_guarded (s : V2.State) :
  let sv := V2.annualOperationalSavings s in
  (sv <= 0 -> V2.paybackOneMW s = dash /\ V2.paybackYourCase s = dash) /\
  (0 < sv ->
     V2.paybackOneMW s
       = toFixed 1 (Fin (V2.whrCapitalCostPerMW s * 1000000 / sv)) ++ " years" /\
     V2.paybackOneMW s <> dash) /\
  V2.paybackYourCase s = V2.paybackOneMW s /\
  (0 <= V2.mw s -> 0 <= V2.hours s ->
     (V2.paybackOneMW s = dash <-> V2.mw s == 0 \/ V2.hours s == 0)).
Proof.
  cbv zeta.
  assert (Neg : V2.annualOperationalSavings s <= 0 ->
                V2.paybackOneMW s = dash /\ V2.paybackYourCase s = dash).
  { intro H. unfold V2.paybackOneMW, V2.paybackYourCase.
    assert (P : V2.savingsPositive s = false).
    { destruct (V2.savingsPositive s) eqn:E; [|reflexivity].
      apply V2_savingsPositive_iff in E. lra. }
    now rewrite P. }
  assert (Pos : 0 < V2.annualOperationalSavings s ->
     V2.paybackOneMW s
       = toFixed 1 (Fin (V2.whrCapitalCostPerMW s * 1000000
                         / V2.annualOperationalSavings s)) ++ " years" /\
     V2.paybackYourCase s = V2.paybackOneMW s).
  { intro H. unfold V2.paybackOneMW, V2.paybackYourCase.
    assert (P : V2.savingsPositive s = true) by now apply V2_savingsPositive_iff.
    rewrite P.
    assert (Hm : ~ V2.mw s == 0).
    { intro E. unfold V2.annualOperationalSavings, V2.annual in H.
      rewrite E in H. lra. }
    destruct (div_fin (V2.whrCapitalCostPerMW s * 1000000)
                      (V2.annualOperationalSavings s)) as [D1 _].
    destruct (div_fin (V2.whrCapitalCostPerMW s * V2.mw s * 1000000)
                      (V2.annualOperationalSavings s * V2.mw s)) as [D2 _].
    rewrite D1 by lra.
    rewrite D2.
    2:{ intro E. apply Hm.
        destruct (Qmult_integral _ _ E) as [E1|E1]; [lra | exact E1]. }
    split; [reflexivity|]. f_equal. apply toFixed_Qeq. field.
    split; first [exact Hm | lra]. }
  split; [exact Neg|]. split.
  { intro H. destruct (Pos H) as [E _]. split; [exact E|].
    rewrite E. apply toFixed_not_dash. discriminate. }
  split.
  { destruct (Qlt_le_dec 0 (V2.annualOperationalSavings s)) as [H|H].
    - now destruct (Pos H).
    - destruct (Neg H) as [A B]. now rewrite A, B. }
  intros Hm Hh. split.
  - intro E.
    destruct (Qlt_le_dec 0 (V2.annualOperationalSavings s)) as [H|H].
    + destruct (Pos H) as [E1 _]. rewrite E1 in E.
      exfalso. revert E. apply toFixed_not_dash. discriminate.
    + unfold V2.annualOperationalSavings, V2.annual in H.
      destruct (Qeq_dec (V2.mw s) 0) as [Z|Z]; [now left|].
      destruct (Qeq_dec (V2.hours s) 0) as [Z'|Z']; [now right|].
      exfalso. assert (0 < V2.mw s) by lra. assert (0 < V2.hours s) by lra. nra.
  - intros [E|E]; apply Neg; unfold V2.annualOperationalSavings, V2.annual;
      rewrite E; lra.
Qed.

(** The payback printed for the initial sliders, and for no load. *)
Lemma playground_payback_sample :
  V2.paybackOneMW V2.initialState = "0.0 years" /\
  V2.paybackOneMW (V2.mk 1 8 0.25) = "892.9 years" /\
  V2.paybackOneMW (V2.mk 0 4000 0.25) = dash.
Proof. repeat split; vm_compute; reflexivity. Qed.

(* ------------------------------------------------------------------ *)
(** ** The earlier calculator page *)

(** On the earlier page the loop temperature difference follows the
    facility temperature: it is 12 degrees from 12 degrees upwards, the
    facility temperature itself between 1 and 12 degrees and 1 degree
    below; it always lies between 1 and 12. *)
Theorem v1_deltaT_piecewise (t : Q) :
  (12 <= t -> V1.dcDeltaT t == 12) /\
  (1 <= t <= 12 -> V1.dcDeltaT t == t) /\
  (t <= 1 -> V1.dcDeltaT t == 1) /\
  1 <= V1.dcDeltaT t <= 12 /\
  0 <= V1.dcReturnTempC t.
Proof.
  unfold V1.dcDeltaT, V1.dcReturnTempC.
  destruct (Qmax_cases 0 (t - 12)) as [[A B]|[A B]];
    destruct (Qmax_cases 1 (t - Qmax 0 (t - 12))) as [[C D]|[C D]];
    (split; [intro H; lra|]); (split; [intros [H1 H2]; lra|]);
    (split; [intro H; lra|]); (split; [split; lra | lra]).
Qed.

(** For the same effective MW-years and the same temperature fed to
    the DAC ramp, the water by-product of the earlier page (1.6 m3 per
    tCO2) is 45.5 times the DAC factor times the figure of the current
    page (160 m3 per MW-year): between 22.75 and 45.5 times as much. *)
Theorem dac_water_between_pages (s : State)
    (Hload : 0 <= itLoadMW s) (Hhours : 0 <= hoursPerYear s) :
  let eff := effectiveMWyr (core s) in
  let old := V1.dacWaterM3PerYear eff (dcReturnTempC s) in
  let new := dacWaterM3PerYear (outputs s) in
  old == 45.5 * dacFactor (perf s) * new /\
  22.75 * new <= old <= 45.5 * new /\
  V1.dacTco2PerYear eff (dcReturnTempC s) == dacTco2PerYear (outputs s).
Proof.
  cbv zeta.
  pose proof (effective_nonneg s Hload Hhours) as He.
  destruct (perf_bounds s) as (_ & _ & Bd & _).
  unfold V1.dacWaterM3PerYear, V1.dacTco2PerYear, V1.dacFactor, outputs.
  cbn [dacWaterM3PerYear dacTco2PerYear].
  change (ramp (dcReturnTempC s) 30 DAC_RELEASE_TEMP_C 0.5 1.0)
    with (dacFactor (perf s)).
  set (eff := effectiveMWyr (core s)) in *.
  set (fd := dacFactor (perf s)) in *.
  assert (E1 : DAC_TCO2_PER_MW_YEAR == 4550) by reflexivity.
  assert (E2 : V1.DAC_WATER_M3_PER_TCO2 == 1.6) by reflexivity.
  assert (E3 : DAC_WATER_M3_PER_MW_YEAR == 160) by reflexivity.
  rewrite E1, E2, E3.
  repeat split; try ring; nra.
Qed.

Lemma dac_water_between_pages_witness :
  (0 <= itLoadMW initialState /\ 0 <= hoursPerYear initialState) /\
  22.75 * dacWaterM3PerYear (outputs initialState)
    <= V1.dacWaterM3PerYear (effectiveMWyr (core initialState))
                            (dcReturnTempC initialState).
Proof.
  split; [split; discriminate|].
  destruct (dac_water_between_pages initialState) as (_ & (H & _) & _).
  - discriminate.
  - discriminate.
  - exact H.
Defined.

(* ------------------------------------------------------------------ *)
(** ** More on the ownership comparison *)

(** Model A carries the heat exchanger, the piping and the plant;
    models B and C carry the heat exchanger alone and have no opex.  The
    piping capex is an absolute value, so it is never negative, and the
    plant capex is positive, so the capex of model A exceeds that of the
    other two in every state. *)
Theorem ownership_capex_structure (d : OffData) (s : State) :
  let o := ownershipComparison d s in
  Ownership.totalCapex (Ownership.modelA o)
    == Ownership.totalCapex (Ownership.modelB o)
       + Ownership.pipingCapex o + Ownership.offtakePlantCapex o /\
  Ownership.totalCapex (Ownership.modelB o) = Ownership.heatExchangerCapex o /\
  Ownership.totalCapex (Ownership.modelC o) = Ownership.heatExchangerCapex o /\
  (Ownership.annualOpex (Ownership.modelB o) = 0 /\
   Ownership.annualOpex (Ownership.modelC o) = 0) /\
  0 <= Ownership.pipingCapex o /\
  0 < Ownership.offtakePlantCapex o /\
  Ownership.totalCapex (Ownership.modelB o)
    < Ownership.totalCapex (Ownership.modelA o).
Proof.
  cbv zeta. unfold ownershipComparison.
  cbn [Ownership.modelA Ownership.modelB Ownership.modelC Ownership.totalCapex
       Ownership.annualOpex Ownership.pipingCapex Ownership.offtakePlantCapex
       Ownership.heatExchangerCapex].
  pose proof (Qabs_nonneg (OfftakeCosts.totalCapex (offtakeCosts d s))) as Hp.
  destruct (plant_costs_positive (offtake s)) as [Hc _].
  set (pipe := Qabs (OfftakeCosts.totalCapex (offtakeCosts d s))) in *.
  set (capM := PlantCosts.capexM (OFFTAKE_PLANT_COSTS (offtake s))) in *.
  repeat split; try reflexivity; lra.
Qed.

Lemma add_num_eq (a : num) (x y : Q) :
  x == y -> num_eq (add a (Fin x)) (add a (Fin y)).
Proof.
  intro H. destruct a; cbn; auto. now rewrite H.
Qed.

Lemma div_num_eq (c : Q) (a b : num) :
  num_eq a b -> num_eq (div (Fin c) a) (div (Fin c) b).
Proof.
  destruct a as [x| | |], b as [y| | |]; cbn [num_eq]; intro H;
    try contradiction; try (cbn; auto; reflexivity).
  unfold div.
  assert (E : eqb x 0 = eqb y 0)
    by (unfold eqb; apply Qeqb_comp; [exact H | reflexivity]).
  rewrite E. destruct (eqb y 0) eqn:Y.
  - apply num_eq_refl.
  - cbn. now rewrite H.
Qed.

(** Models B and C differ only in the amount the third party passes on:
    when the tipping fee for the year equals the operator's revenue
    share, the two models have the same revenue, profit and payback for
    the operator and the same profit for the third party. *)
Theorem tipping_fee_equals_share (d : OffData) (s : State)
    (H : annualHeatMWh (core s) * tippingFeePerMWh s
         == offtakeRevenue s * (revenueSharePercent s / 100)) :
  let b := Ownership.modelB (ownershipComparison d s) in
  let c := Ownership.modelC (ownershipComparison d s) in
  num_eq (Ownership.annualRevenue b) (Ownership.annualRevenue c) /\
  num_eq (Ownership.annualProfit b) (Ownership.annualProfit c) /\
  num_eq (Ownership.paybackYears b) (Ownership.paybackYears c) /\
  exists tb tc,
    Ownership.thirdPartyProfit b = Some tb /\
    Ownership.thirdPartyProfit c = Some tc /\ tb == tc.
Proof.
  cbv zeta. unfold ownershipComparison.
  cbn [Ownership.modelB Ownership.modelC Ownership.annualRevenue
       Ownership.annualProfit Ownership.paybackYears Ownership.thirdPartyProfit].
  split; [now apply add_num_eq|]. split; [now apply add_num_eq|].
  split; [now apply div_num_eq, add_num_eq|].
  eexists. eexists. split; [reflexivity|]. split; [reflexivity|].
  rewrite H. ring.
Qed.

(** The initial page with the fee that matches a 30 % share. *)
Lemma tipping_fee_equals_share_witness :
  let s := withOwnershipTerms (6825 # 1752) 30 initialState in
  annualHeatMWh (core s) * tippingFeePerMWh s
    == offtakeRevenue s * (revenueSharePercent s / 100) /\
  num_eq (Ownership.paybackYears (Ownership.modelB (ownershipComparison noData s)))
         (Ownership.paybackYears (Ownership.modelC (ownershipComparison noData s))).
Proof.
  cbv zeta. split.
  - vm_compute. reflexivity.
  - destruct (tipping_fee_equals_share noData
                (withOwnershipTerms (6825 # 1752) 30 initialState))
      as (_ & _ & Hp & _).
    + vm_compute. reflexivity.
    + exact Hp.
Defined.

Lemma quotient_decreasing (c p p' : Q) :
  0 < c -> 0 < p -> p < p' -> 0 < c / p' /\ c / p' < c / p.
Proof.
  intros Hc Hp Hpp. split.
  - apply Qlt_shift_div_l; lra.
  - apply Qlt_shift_div_r; [lra|].
    assert (E : c / p * p' == c + c / p * (p' - p)) by (field; lra).
    rewrite E.
    assert (0 < c / p) by (apply Qlt_shift_div_l; lra).
    assert (0 < c / p * (p' - p)) by (apply Qmult_lt_0_compat; lra).
    lra.
Qed.

(** In model B a higher tipping fee shortens the payback: with heat to
    sell, a positive heat-exchanger capex and a positive annual profit
    at the lower fee, the payback at the higher fee is a smaller
    positive number. *)
Theorem modelB_payback_decreases_with_fee (d : OffData) (s : State)
    (fee fee' share p : Q)
    (Hp : Ownership.annualProfit
            (Ownership.modelB (ownershipComparison d (withOwnershipTerms fee share s)))
          = Fin p)
    (Hpos : 0 < p) (Hfee : fee < fee')
    (Hheat : 0 < annualHeatMWh (core s))
    (Hcap : 0 < recoverableHeatMW (core s) * whrCapitalCostPerMW s) :
  exists q q',
    Ownership.paybackYears
      (Ownership.modelB (ownershipComparison d (withOwnershipTerms fee share s)))
      = Fin q /\
    Ownership.paybackYears
      (Ownership.modelB (ownershipComparison d (withOwnershipTerms fee' share s)))
      = Fin q' /\
    0 < q' /\ q' < q.
Proof.
  assert (Eprofit : forall f0,
    Ownership.annualProfit
      (Ownership.modelB (ownershipComparison d (withOwnershipTerms f0 share s)))
    = add (DcSavings.annualOperationalSavings (dcSavings s))
          (Fin (annualHeatMWh (core s) * f0))) by reflexivity.
  assert (Epay : forall f0,
    Ownership.paybackYears
      (Ownership.modelB (ownershipComparison d (withOwnershipTerms f0 share s)))
    = div (Fin (recoverableHeatMW (core s) * whrCapitalCostPerMW s * 1000000))
          (add (DcSavings.annualOperationalSavings (dcSavings s))
               (Fin (annualHeatMWh (core s) * f0)))) by reflexivity.
  rewrite Eprofit in Hp. rewrite !Epay.
  destruct (DcSavings.annualOperationalSavings (dcSavings s)) as [x| | |];
    cbn [add] in *; try discriminate.
  injection Hp as Hp. subst p.
  change (0 < x + annualHeatMWh (core s) * fee) in Hpos.
  set (heat := annualHeatMWh (core s)) in *.
  set (hx := recoverableHeatMW (core s) * whrCapitalCostPerMW s * 1000000).
  assert (Hhx : 0 < hx) by (unfold hx; lra).
  assert (Hlt : x + heat * fee < x + heat * fee') by nra.
  destruct (div_fin hx (x + heat * fee)) as [D1 _].
  destruct (div_fin hx (x + heat * fee')) as [D2 _].
  exists (hx / (x + heat * fee)), (hx / (x + heat * fee')).
  split; [apply D1; lra|]. split; [apply D2; lra|].
  now apply quotient_decreasing.
Qed.

(** The initial page with a fee of 10 and of 20 dollars per MWh. *)
Lemma modelB_payback_decreases_with_fee_witness :
  exists p,
    Ownership.annualProfit
      (Ownership.modelB (ownershipComparison noData
                           (withOwnershipTerms 10 30 initialState))) = Fin p /\
    0 < p /\ 10 < 20 /\
    0 < annualHeatMWh (core initialState) /\
    0 < recoverableHeatMW (core initialState) * whrCapitalCostPerMW initialState /\
    exists q q',
      Ownership.paybackYears
        (Ownership.modelB (ownershipComparison noData
                             (withOwnershipTerms 10 30 initialState))) = Fin q /\
      Ownership.paybackYears
        (Ownership.modelB (ownershipComparison noData
                             (withOwnershipTerms 20 30 initialState))) = Fin q' /\
      0 < q' /\ q' < q.
Proof.
  eexists. split; [vm_compute; reflexivity|].
  split; [reflexivity|]. split; [reflexivity|]. split; [reflexivity|].
  split; [reflexivity|].
  eapply (modelB_payback_decreases_with_fee noData initialState 10 20 30).
  - vm_compute. reflexivity.
  - reflexivity.
  - reflexivity.
  - reflexivity.
  - reflexivity.
Defined.

(* ------------------------------------------------------------------ *)
(** ** Every offered location is found by the lookups *)

Lemma isSpace_lower (c : ascii) : isSpace (lower_ascii c) = isSpace c.
Proof.
  destruct c as [[|] [|] [|] [|] [|] [|] [|] [|]]; reflexivity.
Qed.

Lemma lower_trimStart (s : string) :
  toLowerCase (trimStart s) = trimStart (toLowerCase s).
Proof.
  induction s as [|c s IH]; [reflexivity|].
  cbn [trimStart toLowerCase]. rewrite isSpace_lower.
  destruct (isSpace c); [exact IH | reflexivity].
Qed.

Lemma lower_trimEnd (s : string) :
  toLowerCase (trimEnd s) = trimEnd (toLowerCase s).
Proof.
  induction s as [|c s IH]; [reflexivity|].
  cbn [trimEnd toLowerCase]. rewrite <- IH, isSpace_lower.
  destruct (trimEnd s); cbn [toLowerCase]; [|reflexivity].
  destruct (isSpace c); reflexivity.
Qed.

Lemma lower_trim (s : string) : toLowerCase (trim s) = trim (toLowerCase s).
Proof. unfold trim. now rewrite lower_trimEnd, lower_trimStart. Qed.

Lemma prefix_trimEnd (s : string) : String.prefix (trimEnd s) s = true.
Proof.
  induction s as [|c s IH]; [reflexivity|].
  cbn [trimEnd]. destruct (trimEnd s) as [|c' t] eqn:E.
  - destruct (isSpace c); [reflexivity|].
    rewrite prefix_cons. apply prefix_nil.
  - rewrite prefix_cons. exact IH.
Qed.

Lemma includes_after_trimStart (s sub : string) :
  String.prefix sub (trimStart s) = true -> includes s sub = true.
Proof.
  induction s as [|c s IH]; intro H.
  - cbn in *. now rewrite H.
  - cbn [trimStart] in H. cbn [includes]. apply orb_true_iff.
    destruct (isSpace c); [right; now apply IH | now left].
Qed.

Lemma includes_trim (s : string) : includes s (trim s) = true.
Proof. apply includes_after_trimStart, prefix_trimEnd. Qed.

Lemma find_finds {A : Type} (p : A -> bool) (l : list A) (x : A) :
  In x l -> p x = true -> exists y, find p l = Some y /\ p y = true.
Proof.
  intros Hin Hp. destruct (find p l) as [y|] eqn:F.
  - exists y. split; [reflexivity|]. now apply find_some in F.
  - rewrite (find_none _ _ F x Hin) in Hp. discriminate.
Qed.

Lemma trim_inside_lower (x : string) :
  contains (toLowerCase x) (toLowerCase (trim x)).
Proof. apply includes_contains. rewrite lower_trim. apply includes_trim. Qed.

(** Every entry of the location selector is found by both region
    lookups without the European-average fallback, for any string
    methods under which the lower-cased trimmed text occurs in the
    lower-cased text.  The lookup of the region card returns a row whose
    lower-cased location contains the lower-cased entry.  The lookup of
    the piping cost returns a row whose lower-cased location contains
    the lower-cased entry or is contained in it; that row need not be
    the row the entry came from. *)
Theorem offered_location_is_found
    (lower trimF : string -> string) (lenF : string -> nat)
    (d : OffData) (loc : string)
    (Htrim : forall x, contains (lower x) (lower (trimF x)))
    (H : In loc (locationsWith lower trimF lenF d)) :
  (exists r, findRegionRowWith lower (raw_rows d) loc = Some r /\
             In r (raw_rows d) /\
             (contains (lower (__EMPTY r)) (lower loc) \/
              contains (lower loc) (lower (__EMPTY r)))) /\
  (exists r, findRegionRowInfoWith lower (raw_rows d) loc = Some r /\
             In r (raw_rows d) /\
             contains (lower (__EMPTY r)) (lower loc)).
Proof.
  unfold locationsWith in H.
  destruct (locationsFromWith_spec lower trimF lenF (raw_rows d) [] []) as [_ I];
    [intro; tauto | constructor |].
  apply I in H. destruct H as [[]|(r0 & Hin & Hloc & _)].
  assert (M : includes (lower (__EMPTY r0)) (lower loc) = true).
  { subst loc. apply includes_contains, Htrim. }
  split.
  - destruct (find_finds (matchesRegionWith lower (lower loc)) (raw_rows d) r0 Hin)
      as (y & F & Hy).
    { unfold matchesRegionWith. now rewrite M. }
    exists y. unfold findRegionRowWith. rewrite F.
    split; [reflexivity|]. split; [now apply find_some in F|].
    now apply matchesRegionWith_iff.
  - destruct (find_finds (fun r => includes (lower (__EMPTY r)) (lower loc))
                (raw_rows d) r0 Hin M) as (y & F & Hy).
    exists y. unfold findRegionRowInfoWith. rewrite F.
    split; [reflexivity|]. split; [now apply find_some in F|].
    now apply includes_contains.
Qed.

(** A padded location cell of a two-row table, at the ASCII string
    methods. *)
Lemma offered_location_is_found_witness :
  let d := mkOffData [mkRow "  Germany " (Numeric 0.3);
                      mkRow "European average" (Numeric 0.2)] None in
  (forall x, contains (toLowerCase x) (toLowerCase (trim x))) /\
  In "Germany" (locationsWith toLowerCase trim String.length d) /\
  exists r, findRegionRowInfoWith toLowerCase (raw_rows d) "Germany" = Some r /\
            In r (raw_rows d) /\
            contains (toLowerCase (__EMPTY r)) (toLowerCase "Germany").
Proof.
  cbv zeta. split; [exact trim_inside_lower|]. split.
  - vm_compute. left. reflexivity.
  - apply (offered_location_is_found toLowerCase trim String.length
             (mkOffData [mkRow "  Germany " (Numeric 0.3);
                         mkRow "European average" (Numeric 0.2)] None)
             "Germany" trim_inside_lower).
    vm_compute. left. reflexivity.
Defined.

(** The piping-cost lookup of an offered location can return another
    row: a shorter location that the entry contains comes first. *)
Lemma offered_location_other_row :
  let d := mkOffData [mkRow "Ger" (Numeric 0.5);
                      mkRow "Germany" (Numeric 0.3)] None in
  In "Germany" (locations d) /\
  findRegionRow (raw_rows d) "Germany" = Some (mkRow "Ger" (Numeric 0.5)) /\
  findRegionRowInfo (raw_rows d) "Germany" = Some (mkRow "Germany" (Numeric 0.3)).
Proof. cbv zeta. split; [|split]; vm_compute; auto. Qed.
